(** * BirdsEye: sensor likelihood models and relative-state dynamics

    A shallow embedding of [birdseye/sensor.py] and [birdseye/state.py].

    - Python numbers that only go through comparisons and field arithmetic
      (the sensor models and the reward) are rationals ([Q]), so every such
      definition evaluates.
    - The kinematics ([update_state], [update_sensor]) use [cos], [sin],
      [sqrt] and [arctan2]; they are written over the real numbers ([R]).
      This is an idealisation of the binary64 arithmetic of the source: it is
      used for what the object keeps or changes, for the course (integer
      degrees, which binary64 carries exactly) and for a target dead ahead,
      and not for the range and bearing that come back from the trip through
      Cartesian coordinates, which binary64 only gives up to rounding.
    - Where rounding itself is the point (the wrap of a negative bearing),
      the statement of the source is written on binary64 floats ([Float64]).
    - [random] is an explicit generator threaded through the code: a tape of
      integers and a cursor, each draw reading one cell.
    - A Python exception is a value of [exn], returned through [result]. *)

From Stdlib Require Import ZArith QArith String List Bool Lia Lqa.
From Stdlib Require Import Reals Lra.
From Stdlib Require Floats.
Import ListNotations.

Set Implicit Arguments.

(** ** The state vector

    [state] in the source is a sequence indexed 0..3:
    [state[0]] is the range, [state[1]] the bearing, [state[2]] the relative
    course and [state[3]] the speed. *)

Record vec4 (A : Type) : Type := Vec4 {
  range       : A;   (* state[0] *)
  bearing_deg : A;   (* state[1] *)
  course_deg  : A;   (* state[2] *)
  speed       : A    (* state[3] *)
}.

Definition vec4_map {A B : Type} (f : A -> B) (s : vec4 A) : vec4 B :=
  Vec4 (f (range s)) (f (bearing_deg s)) (f (course_deg s)) (f (speed s)).

(** ** Exceptions and results *)

Inductive exn : Type :=
| UnboundLocalError (var : string)
| ValueError (msg : string)
| ZeroDivisionError.

Inductive result (A : Type) : Type :=
| Ok (a : A)
| Raise (e : exn).

Arguments Ok {A} a.
Arguments Raise {A} e.

(** What a Python function hands back when it returns normally: a number, or
    [None] when control falls off the end of the body. *)
Inductive pyval : Type :=
| PNum (q : Q)
| PNone.

(** ** Computations with a state that may raise *)

Definition M (S A : Type) : Type := S -> result (A * S).

Definition ret {S A : Type} (a : A) : M S A := fun s => Ok (a, s).

Definition bind {S A B : Type} (c : M S A) (k : A -> M S B) : M S B :=
  fun s => match c s with
           | Ok (a, s') => k a s'
           | Raise e => Raise e
           end.

Definition raise {S A : Type} (e : exn) : M S A := fun _ => Raise e.

Declare Scope monad_scope.
Delimit Scope monad_scope with monad.
Notation "x <- c ;; k" := (bind c (fun x => k))
  (at level 61, c at next level, right associativity) : monad_scope.
Notation "' pat <- c ;; k" := (bind c (fun x => match x with pat => k end))
  (at level 61, pat pattern, c at next level, right associativity) : monad_scope.

(** ** The random generator

    The generator is a tape of integers and a cursor.  Each call of
    [random.randint], [random.choice] or [random.random] reads the cell under
    the cursor and moves on; the cell is reduced into the range of the call,
    so every tape is a run and every outcome of a call is the image of some
    cell. *)

Module Random.

Record rng : Type := Rng { tape : nat -> Z; cursor : nat }.

Definition next (g : rng) : Z * rng :=
  (tape g (cursor g), Rng (tape g) (S (cursor g))).

(** [random.randint(a, b)]: any integer of [a..b]. *)
Definition randint (a b : Z) : M rng Z :=
  fun g => let (n, g') := next g in Ok ((a + n mod (b - a + 1))%Z, g').

(** [random.choice(seq)] on a non-empty sequence [x :: xs]. *)
Definition choice {A : Type} (x : A) (xs : list A) : M rng A :=
  fun g => let (n, g') := next g in
           Ok (nth (Z.to_nat (n mod Z.of_nat (S (length xs)))) (x :: xs) x, g').

(** [random.random()]: a multiple of 2^-53 in [0, 1). *)
Definition random : M rng R :=
  fun g => let (n, g') := next g in
           Ok ((IZR (n mod 2 ^ 53) / IZR (2 ^ 53))%R, g').

(** [random.random()] again, as the rational it is, for the code that only
    compares and multiplies it. *)
Definition random_Q : M rng Q :=
  fun g => let (n, g') := next g in
           Ok (Qmake (n mod 2 ^ 53) (2 ^ 53)%positive, g').

(** [itertools.accumulate(weights)]: the running sums. *)
Fixpoint accumulate_from (acc : Q) (ws : list Q) : list Q :=
  match ws with
  | [] => []
  | w :: ws' => (acc + w)%Q :: accumulate_from (acc + w)%Q ws'
  end.

Definition accumulate (ws : list Q) : list Q :=
  match ws with
  | [] => []
  | w :: ws' => w :: accumulate_from w ws'
  end.

(** [bisect.bisect_right(a, x, lo, hi)]: the loop
    [while lo < hi: mid = (lo + hi) // 2; if x < a[mid]: hi = mid
     else: lo = mid + 1], run for at most [fuel] rounds.  The test
    [x < a[mid]] is written as the negation of [a[mid] <= x]. *)
Fixpoint bisect_loop (fuel : nat) (a : list Q) (x : Q) (lo hi : nat) : nat :=
  match fuel with
  | O => lo
  | S fuel' =>
      if (lo <? hi)%nat then
        let mid := ((lo + hi) / 2)%nat in
        if negb (Qle_bool (nth mid a 0%Q) x)
        then bisect_loop fuel' a x lo mid
        else bisect_loop fuel' a x (S mid) hi
      else lo
  end.

(** Every round shrinks [hi - lo], so [hi - lo] rounds are enough. *)
Definition bisect_right (a : list Q) (x : Q) (lo hi : nat) : nat :=
  bisect_loop (hi - lo) a x lo hi.

(** [random.choices(population, weights)[0]] on a non-empty population
    [x :: xs]: the cumulative weights are built, their number and their total
    are checked, and the population is indexed by the position of
    [random() * total] among them. *)
Definition choices {A : Type} (x : A) (xs : list A) (weights : list Q) : M rng A :=
  let cum_weights := accumulate weights in
  if negb (length cum_weights =? S (length xs))%nat
  then raise (ValueError "The number of weights does not match the population")
  else
    let total := last cum_weights 0%Q in
    if Qle_bool total 0
    then raise (ValueError "Total of weights must be greater than zero")
    else
      (u <- random_Q ;;
       ret (nth (bisect_right cum_weights (u * total)%Q 0 (length xs)) (x :: xs) x))%monad.

(** A generator whose next draws are the given integers, then zeros. *)
Definition of_list (l : list Z) : rng := Rng (fun i => nth i l 0%Z) 0.

End Random.

Import Random.

(** ** Rational comparisons as the source writes them *)

Definition Qltb (x y : Q) : bool := negb (Qle_bool y x).
Definition Qleb (x y : Q) : bool := Qle_bool x y.
Definition Qgeb (x y : Q) : bool := Qle_bool y x.
Definition Qgtb (x y : Q) : bool := negb (Qle_bool x y).

(** ** sensor.py *)

Module Drone.

Local Open Scope Q_scope.

(** [obs1_prob]: probability of observation 1. *)
Definition obs1_prob (x : vec4 Q) : Q :=
  let rel_bearing := bearing_deg x in
  if Qleb (-60) rel_bearing && Qleb rel_bearing 60 then 0.9
  else if Qleb 120 rel_bearing && Qleb rel_bearing 240 then 0.1
  else 0.5.

(** [weight(hyp, o, xp)]; [hyp] is not used by the source. *)
Definition weight (o : Z) (xp : vec4 Q) : Q :=
  if (o =? 1)%Z then obs1_prob xp else 1 - obs1_prob xp.

(** The symbols [observation] draws from: [obsers = [0, 1]]. *)
Definition obsers : list Z := [0; 1]%Z.

(** [observation(x)]: a symbol drawn with the weights [1 - p1, p1]. *)
Definition observation (x : vec4 Q) : M rng Z :=
  let weights := [1 - obs1_prob x; obs1_prob x] in
  choices 0%Z [1%Z] weights.

(** [gen_state(obs)]: [bearing] is only bound on the two branches. *)
Definition gen_state (obs : Z) : M rng (vec4 Z) :=
  (bearing <- (if (obs =? 1)%Z then b <- randint (-60) 60 ;; ret (Some b)
               else if (obs =? 0)%Z then b <- randint 120 240 ;; ret (Some b)
               else ret None) ;;
   bearing <- match bearing with
              | None => raise (UnboundLocalError "bearing")
              | Some b => ret (if (b <? 0)%Z then (b + 360)%Z else b)
              end ;;
   r <- randint 25 100 ;;
   c <- randint 0 11 ;;
   ret (Vec4 r bearing (c * 30)%Z 1%Z))%monad.

End Drone.

Module Bearing.

Local Open Scope Q_scope.

Section WithRange.

(** [self.sensor_range], 150 unless the constructor is told otherwise. *)
Variable sensor_range : Q.

Definition obs1 (state : vec4 Q) : Q :=
  let rel_brg := bearing_deg state in
  let state_range := range state in
  let rel_brg := if Qltb rel_brg 0 then rel_brg + 360 else rel_brg in
  if ((Qltb 60 rel_brg && Qltb rel_brg 90) || (Qltb 270 rel_brg && Qltb rel_brg 300))
     && Qltb state_range (sensor_range / 2) then 1
  else if ((Qltb 60 rel_brg && Qltb rel_brg 90) || (Qltb 270 rel_brg && Qltb rel_brg 300))
          && Qltb state_range sensor_range then 2 - 2 * state_range / sensor_range
  else 0.0001.

Definition obs2 (state : vec4 Q) : Q :=
  let rel_brg := course_deg state in
  let state_range := bearing_deg state in
  let rel_brg := if Qltb rel_brg 0 then rel_brg + 360 else rel_brg in
  if ((Qleb 90 rel_brg && Qltb rel_brg 120) || (Qltb 240 rel_brg && Qleb rel_brg 270))
     && Qltb state_range (sensor_range / 2) then 1
  else if ((Qleb 90 rel_brg && Qltb rel_brg 120) || (Qltb 240 rel_brg && Qleb rel_brg 270))
          && Qltb state_range sensor_range then 2 - 2 * state_range / sensor_range
  else 0.0001.

Definition obs3 (state : vec4 Q) : Q :=
  let rel_brg := bearing_deg state in
  let state_range := range state in
  let rel_brg := if Qltb rel_brg 0 then rel_brg + 360 else rel_brg in
  if (Qleb 120 rel_brg && Qleb rel_brg 240)
     && Qltb state_range (sensor_range / 2) then 1
  else if (Qleb 120 rel_brg && Qleb rel_brg 240)
          && Qltb state_range sensor_range then 2 - 2 * state_range / sensor_range
  else 0.0001.

Definition obs0 (state : vec4 Q) : Q :=
  let rel_brg := bearing_deg state in
  let state_range := range state in
  let rel_brg := if Qltb rel_brg 0 then rel_brg + 360 else rel_brg in
  if Qleb rel_brg 60 || Qgeb rel_brg 300 || Qgeb state_range sensor_range then 1
  else if negb (Qgtb (obs1 state) 0) && negb (Qgtb (obs2 state) 0)
          && negb (Qgtb (obs3 state) 0) then 1
  else if (Qleb 120 rel_brg && Qleb rel_brg 240)
          && (Qltb (sensor_range / 2) state_range && Qltb state_range sensor_range)
       then 2 * state_range / sensor_range - 1
  else if ((Qleb 90 rel_brg && Qltb rel_brg 120) || (Qltb 240 rel_brg && Qleb rel_brg 270))
          && (Qltb (sensor_range / 2) state_range && Qltb state_range sensor_range)
       then 2 * state_range / sensor_range - 1
  else if ((Qleb 60 rel_brg && Qltb rel_brg 90) || (Qltb 270 rel_brg && Qleb rel_brg 300))
          && (Qltb (sensor_range / 2) state_range && Qltb state_range sensor_range)
       then 2 * state_range / sensor_range - 1
  else 0.0001.

(** [weight(hyp, o, xp)]: four [if]s without an [else]; a symbol that
    matches none of them reaches the end of the body. *)
Definition weight (o : Z) (xp : vec4 Q) : pyval :=
  if (o =? 0)%Z then PNum (obs0 xp)
  else if (o =? 1)%Z then PNum (obs1 xp)
  else if (o =? 2)%Z then PNum (obs2 xp)
  else if (o =? 3)%Z then PNum (obs3 xp)
  else PNone.

(** [observation(x)]: a symbol drawn with the four region weights. *)
Definition observation (x : vec4 Q) : M rng Z :=
  let weights := [obs0 x; obs1 x; obs2 x; obs3 x] in
  choices 0%Z [1; 2; 3]%Z weights.

End WithRange.

(** The symbols [observation] draws from: [obsers = [0, 1, 2, 3]]. *)
Definition obsers : list Z := [0; 1; 2; 3]%Z.

(** [gen_state(obs)]; both [randint] arguments of [random.choice] are drawn
    before the choice is made. *)
Definition gen_state (obs : Z) : M rng (vec4 Z) :=
  (bearing <- (if (obs =? 0)%Z then b <- randint (-60) 60 ;; ret (Some b)
               else if (obs =? 1)%Z then
                 b1 <- randint 60 90 ;; b2 <- randint 270 300 ;;
                 b <- choice b1 [b2] ;; ret (Some b)
               else if (obs =? 2)%Z then
                 b1 <- randint 90 120 ;; b2 <- randint 240 270 ;;
                 b <- choice b1 [b2] ;; ret (Some b)
               else if (obs =? 3)%Z then b <- randint 120 240 ;; ret (Some b)
               else ret None) ;;
   bearing <- match bearing with
              | None => raise (UnboundLocalError "bearing")
              | Some b => ret (if (b <? 0)%Z then (b + 360)%Z else b)
              end ;;
   r <- randint 25 100 ;;
   c <- randint 0 11 ;;
   ret (Vec4 r bearing (c * 30)%Z 1%Z))%monad.

(** The default [sensor_range] of the constructor. *)
Definition default_sensor_range : Q := 150.

(** The value every region function returns outside its sector. *)
Definition floor_value : Q := 0.0001.

End Bearing.

(** An integer state, as the inverse samplers build it, read as numbers. *)
Definition as_Q (s : vec4 Z) : vec4 Q := vec4_map inject_Z s.

(** *** The [Sensor] interface

    The base class [Sensor] and its two subclasses.  [call_weight] is what a
    caller of [weight] observes: the returned value, or the exception. *)

Class Sensor (T : Type) : Type := {
  alphabet      : T -> list Z;
  call_weight   : T -> Z -> vec4 Q -> result pyval;
  call_gen_state : T -> Z -> M rng (vec4 Z)
}.

Inductive drone : Type := DroneSensor.

Record bearing : Type := BearingSensor { sensor_range : Q }.

#[export] Instance Drone_Sensor : Sensor drone := {
  alphabet _ := Drone.obsers;
  call_weight _ o xp := Ok (PNum (Drone.weight o xp));
  call_gen_state _ := Drone.gen_state
}.

#[export] Instance Bearing_Sensor : Sensor bearing := {
  alphabet _ := Bearing.obsers;
  call_weight b o xp := Ok (Bearing.weight (sensor_range b) o xp);
  call_gen_state _ := Bearing.gen_state
}.

(** Modelled on the words of the spec (4.2): a region's confidence is 1
    inside its angular sector below half the sensor range, decays linearly
    as [2 - 2 * range / sensor_range] up to the sensor range, and is the
    floor otherwise.  [angle] is wrapped by +360 when negative. *)
Definition region_confidence (sensor_range : Q) (sector : Q -> bool)
    (angle rng : Q) : Q :=
  let a := if Qltb angle 0 then (angle + 360)%Q else angle in
  if sector a && Qltb rng (sensor_range / 2) then 1%Q
  else if sector a && Qltb rng sensor_range then (2 - 2 * rng / sensor_range)%Q
  else 0.0001%Q.

Definition sector1 (a : Q) : bool :=
  (Qltb 60 a && Qltb a 90) || (Qltb 270 a && Qltb a 300).
Definition sector2 (a : Q) : bool :=
  (Qleb 90 a && Qltb a 120) || (Qltb 240 a && Qleb a 270).
Definition sector3 (a : Q) : bool :=
  Qleb 120 a && Qleb a 240.

(** ** numpy on real numbers *)

Module Np.

Local Open Scope R_scope.

(** [x % m] on numbers: [x - m * floor (x / m)]. *)
Definition Rmod (x m : R) : R := x - m * IZR (Zfloor (x / m)).

Definition radians (deg : R) : R := deg * PI / 180.

Definition degrees (rad : R) : R := rad * 180 / PI.

(** [np.arctan2(y, x)]: the angle of the point [(x, y)], in (-PI, PI]. *)
Definition arctan2 (y x : R) : R :=
  if Rlt_dec 0 x then atan (y / x)
  else if Rlt_dec x 0 then
    if Rle_dec 0 y then atan (y / x) + PI else atan (y / x) - PI
  else if Rlt_dec 0 y then PI / 2
  else if Rlt_dec y 0 then - (PI / 2)
  else 0.

(** Modelled from the spec: [pol2cart] of [birdseye/utils.py] is not among
    the sources; the spec has it as the exact conversion of a polar pair
    (magnitude, angle in radians) to Cartesian [(x, y)]. *)
Definition pol2cart (rho phi : R) : R * R := (rho * cos phi, rho * sin phi).

End Np.

(** ** state.py *)

Module RFState.

Import Np.

(** *** The reward *)

Definition default_action_penalty : Q := (- 0.05)%Q.

(** [reward_func(state, action_idx=None, action_penalty=-.05)]. *)
Definition reward_func (state : vec4 Q) (action_idx : option Z)
    (action_penalty : Q) : Q :=
  let state_range := range state in
  match action_idx with
  | Some action_idx =>
      let action_penalty :=
        if ((2 <? action_idx)%Z && (action_idx <? 5)%Z)%bool then 0%Q
        else action_penalty in
      if Qgeb state_range 150 then (-2 + action_penalty)%Q
      else if Qleb state_range 10 then (-2 + action_penalty)%Q
      else (0.1 + action_penalty)%Q
  | None =>
      if Qgeb state_range 150 then (-2)%Q
      else if Qleb state_range 10 then (-200)%Q
      else 0.1%Q
  end.

(** Modelled on the words of the spec (4.3): what the range contributes to
    the reward when an action is given. *)
Definition action_range_reward (state : vec4 Q) : Q :=
  if Qgeb (range state) 150 then (-2)%Q
  else if Qleb (range state) 10 then (-2)%Q
  else 0.1%Q.

(** *** The model object *)

Local Open Scope R_scope.

Record t : Type := Model {
  prob             : R;
  target_speed     : R;
  target_movement  : string;
  target_move_iter : Z;
  target_state     : vec4 R;
  sensor_state     : vec4 R
}.

(** What the methods run in: the object and the random generator. *)
Record world : Type := World { self : t; gen : rng }.

Definition with_rng {A : Type} (c : M rng A) : M world A :=
  fun w => match c (gen w) with
           | Ok (a, g') => Ok (a, World (self w) g')
           | Raise e => Raise e
           end.

Definition with_self {A : Type} (c : M t A) : M world A :=
  fun w => match c (self w) with
           | Ok (a, m') => Ok (a, World m' (gen w))
           | Raise e => Raise e
           end.

(** Reading an attribute of [self]. *)
Definition ask {A : Type} (f : t -> A) : M world A :=
  fun w => Ok (f (self w), w).

Definition init_target_state : M rng (vec4 Z) :=
  (r <- randint 25 100 ;;
   b <- randint 0 359 ;;
   c <- randint 0 11 ;;
   ret (Vec4 r b (c * 30)%Z 1%Z))%monad.

Definition init_sensor_state : vec4 R := Vec4 0 0 0 0.

(** [__init__(prob=0.9, target_speed=None, target_movement=None)]. *)
Definition init (prob : R) (target_speed : option R)
    (target_movement : option string) : M rng t :=
  (ts <- init_target_state ;;
   ret (Model prob
              (match target_speed with Some v => v | None => 1 end)
              (match target_movement with Some m => m | None => "random"%string end)
              0%Z
              (vec4_map IZR ts)
              init_sensor_state))%monad.

(** [circular_control(size)]. *)
Definition circular_control (size : Z) : M t (Z * R) :=
  fun m =>
    if (size =? 0)%Z then Raise ZeroDivisionError
    else
      let d_crs := if (target_move_iter m mod size =? 0)%Z then 30%Z else 0%Z in
      let m' := Model (prob m) (target_speed m) (target_movement m)
                      (target_move_iter m + 1)%Z
                      (target_state m) (sensor_state m) in
      Ok ((d_crs, target_speed m'), m').

(** The random course change of the target:
    [if random.random() >= self.prob: crs += random.choice([-1, 1]) * 30]. *)
Definition perturb (prob crs : R) : M rng R :=
  (u <- random ;;
   if Rge_dec u prob
   then (k <- choice (-1)%Z [1%Z] ;; ret (crs + IZR (k * 30)))
   else ret crs)%monad.

(** [update_state(state, control, target_update=False)]. *)
Definition update_state (state : vec4 R) (control : R * R)
    (target_update : bool) : M world (vec4 R) :=
  (let r := range state in
   let theta := bearing_deg state in
   let crs := course_deg state in
   let spd := snd control in
   let theta := Rmod theta 360 in
   let theta := theta - fst control in
   let theta := Rmod theta 360 in
   let theta := if Rlt_dec theta 0 then theta + 360 else theta in
   let crs := Rmod crs 360 in
   let crs := crs - fst control in
   let crs := if Rlt_dec crs 0 then crs + 360 else crs in
   let crs := Rmod crs 360 in
   let '(x, y) := pol2cart r (radians theta) in
   movement <- ask target_movement ;;
   p <- ask prob ;;
   crs <- (if target_update then
             if String.eqb movement "circular"
             then (c <- with_self (circular_control 5) ;;
                   ret (crs + IZR (fst c)))
             else with_rng (perturb p crs)
           else with_rng (perturb p crs)) ;;
   let crs := Rmod crs 360 in
   let crs := if Rlt_dec crs 0 then crs + 360 else crs in
   speed_t <- ask target_speed ;;
   let '(dx, dy) := pol2cart speed_t (radians crs) in
   let pos0 := x + dx - spd in
   let pos1 := y + dy in
   let r := sqrt (pos0 ^ 2 + pos1 ^ 2) in
   let theta_rad := arctan2 pos1 pos0 in
   let theta := degrees theta_rad in
   let theta := if Rlt_dec theta 0 then theta + 360 else theta in
   ret (Vec4 r theta crs spd))%monad.

(** [update_sensor(control)]: overwrites [self.sensor_state]. *)
Definition update_sensor (control : R * R) : M t unit :=
  fun m =>
    let r := range (sensor_state m) in
    let theta_deg := bearing_deg (sensor_state m) in
    let crs := course_deg (sensor_state m) in
    let spd := snd control in
    let crs := Rmod crs 360 in
    let crs := crs + fst control in
    let crs := if Rlt_dec crs 0 then crs + 360 else crs in
    let crs := Rmod crs 360 in
    let '(x, y) := pol2cart r (radians theta_deg) in
    let '(dx, dy) := pol2cart spd (radians crs) in
    let pos0 := x + dx in
    let pos1 := y + dy in
    let r := sqrt (pos0 ^ 2 + pos1 ^ 2) in
    let theta_deg := degrees (arctan2 pos1 pos0) in
    let theta_deg := if Rlt_dec theta_deg 0 then theta_deg + 360 else theta_deg in
    Ok (tt, Model (prob m) (target_speed m) (target_movement m)
                  (target_move_iter m) (target_state m)
                  (Vec4 r theta_deg crs spd)).

End RFState.

(** ** state.py on binary64 *)

Module Float64.

Import Floats.

(** The statement [if theta < 0: theta += 360], which ends the bearing
    computation of [update_state] (lines 160-161), [update_sensor]
    (lines 183-184) and [get_absolute_state] (lines 200-201), on the binary64
    numbers the source computes with. *)
Definition wrap_negative (theta : float) : float :=
  if (theta <? 0)%float then (theta + 360)%float else theta.

(** [0 <= theta < 360] as a test on floats. *)
Definition normalised (theta : float) : bool :=
  ((0 <=? theta)%float && (theta <? 360)%float)%bool.

End Float64.

(** *** The registry *)

(** The classes a registry entry can name. *)
Inductive state_class : Type :=
| RFState_class.

(** [AVAIL_STATES], in insertion order. *)
Definition AVAIL_STATES : list (string * state_class) :=
  [("rfstate"%string, RFState_class)].

(** [str.lower()] on ASCII text. *)
Definition lower_ascii (c : Ascii.ascii) : Ascii.ascii :=
  let n := Ascii.nat_of_ascii c in
  if ((65 <=? n) && (n <=? 90))%nat%bool then Ascii.ascii_of_nat (n + 32) else c.

Fixpoint lower (s : string) : string :=
  match s with
  | EmptyString => EmptyString
  | String c s' => String (lower_ascii c) (lower s')
  end.

(** [name in d] and [d[name]] on the registry. *)
Fixpoint dict_get {V : Type} (d : list (string * V)) (k : string) : option V :=
  match d with
  | [] => None
  | (k', v) :: d' => if String.eqb k k' then Some v else dict_get d' k
  end.

Definition dict_keys {V : Type} (d : list (string * V)) : list string :=
  map fst d.

(** How [format] prints [d.keys()]: [dict_keys(['a', 'b'])]. *)
Definition repr_str (s : string) : string := ("'" ++ s ++ "'")%string.

Definition repr_keys (ks : list string) : string :=
  ("dict_keys([" ++ String.concat ", " (map repr_str ks) ++ "])")%string.

Definition get_state (state_name : string) : result state_class :=
  let state_name := lower state_name in
  match dict_get AVAIL_STATES state_name with
  | Some state_obj => Ok state_obj
  | None =>
      Raise (ValueError ("Invalid action method name, " ++ state_name
                         ++ ", entered. Must be in "
                         ++ repr_keys (dict_keys AVAIL_STATES))%string)
  end.

(** [n] calls of the same method, one after the other. *)
Fixpoint repeatM {S A : Type} (n : nat) (c : M S A) : M S (list A) :=
  match n with
  | O => ret []
  | S n' => (a <- c ;; l <- repeatM n' c ;; ret (a :: l))%monad
  end.

(** The driving loop of the end-to-end scenario: [n] calls of
    [update_state] with the same control and the default [target_update],
    each call fed the state the previous call returned; the result lists the
    state returned by each call. *)
Fixpoint transition_loop (n : nat) (control : R * R) (state : vec4 R)
    : M RFState.world (list (vec4 R)) :=
  match n with
  | O => ret []
  | S n' =>
      (s' <- RFState.update_state state control false ;;
       l <- transition_loop n' control s' ;;
       ret (s' :: l))%monad
  end.

(** The sensor side of the driving loop: one [update_sensor] call for each
    control of the list, in order. *)
Fixpoint sensor_loop (controls : list (R * R)) : M RFState.t unit :=
  match controls with
  | [] => ret tt
  | c :: cs => (_ <- RFState.update_sensor c ;; sensor_loop cs)%monad
  end.

(** * Properties *)

(** ** Comparisons *)

Lemma Qltb_spec (x y : Q) : Qltb x y = true <-> (x < y)%Q.
Proof.
  unfold Qltb. rewrite negb_true_iff. split; intro H.
  - apply Qnot_le_lt. intro Hle. apply Qle_bool_iff in Hle. congruence.
  - destruct (Qle_bool y x) eqn:E; [|reflexivity].
    apply Qle_bool_iff in E. exfalso. apply (Qlt_not_le _ _ H E).
Qed.

Lemma Qleb_spec (x y : Q) : Qleb x y = true <-> (x <= y)%Q.
Proof. apply Qle_bool_iff. Qed.

Lemma Qgtb_spec (x y : Q) : Qgtb x y = true <-> (y < x)%Q.
Proof. apply Qltb_spec. Qed.

Lemma Qgeb_spec (x y : Q) : Qgeb x y = true <-> (y <= x)%Q.
Proof. apply Qle_bool_iff. Qed.

Ltac qbool :=
  repeat match goal with
  | H : Qltb _ _ = true |- _ => apply Qltb_spec in H
  | H : Qleb _ _ = true |- _ => apply Qleb_spec in H
  | H : Qgtb _ _ = true |- _ => apply Qgtb_spec in H
  | H : Qgeb _ _ = true |- _ => apply Qgeb_spec in H
  | H : Qltb ?x ?y = false |- _ =>
      assert (~ (x < y)%Q) by (rewrite <- Qltb_spec; congruence); clear H
  | H : Qleb ?x ?y = false |- _ =>
      assert (~ (x <= y)%Q) by (rewrite <- Qleb_spec; congruence); clear H
  | H : Qgtb ?x ?y = false |- _ =>
      assert (~ (y < x)%Q) by (rewrite <- Qgtb_spec; congruence); clear H
  | H : Qgeb ?x ?y = false |- _ =>
      assert (~ (y <= x)%Q) by (rewrite <- Qgeb_spec; congruence); clear H
  end.

(** ** The binary-detection sensor *)

Lemma obs1_prob_cases (x : vec4 Q) :
  Drone.obs1_prob x = 0.9%Q \/ Drone.obs1_prob x = 0.1%Q \/ Drone.obs1_prob x = 0.5%Q.
Proof.
  unfold Drone.obs1_prob.
  destruct (_ && _); [now left|].
  destruct (_ && _); [now right; left | now right; right].
Qed.

(** C10: the two likelihoods of the binary-detection sensor add up to 1, and
    the likelihood of symbol 1 is 0.9 for a bearing in [-60, 60], 0.1 for a
    bearing in [120, 240] and 0.5 for any other bearing. *)
Theorem drone_weight_complementary (s : vec4 Q) :
  (Drone.weight 1 s + Drone.weight 0 s == 1)%Q
  /\ ((-60 <= bearing_deg s <= 60)%Q -> Drone.weight 1 s = 0.9%Q)
  /\ ((120 <= bearing_deg s <= 240)%Q -> Drone.weight 1 s = 0.1%Q)
  /\ (~ (-60 <= bearing_deg s <= 60)%Q -> ~ (120 <= bearing_deg s <= 240)%Q ->
      Drone.weight 1 s = 0.5%Q).
Proof.
  unfold Drone.weight; simpl. split; [ring|].
  unfold Drone.obs1_prob.
  destruct (Qleb (-60) (bearing_deg s)) eqn:E1;
    destruct (Qleb (bearing_deg s) 60) eqn:E2;
    destruct (Qleb 120 (bearing_deg s)) eqn:E3;
    destruct (Qleb (bearing_deg s) 240) eqn:E4;
    simpl; qbool; repeat split; intros; try reflexivity;
    try (exfalso; Lqa.lra); try tauto.
Qed.

Lemma drone_weight_complementary_witness :
  Drone.weight 1 (Vec4 50 30 0 1)%Q = 0.9%Q
  /\ Drone.weight 1 (Vec4 50 180 0 1)%Q = 0.1%Q
  /\ Drone.weight 1 (Vec4 50 300 0 1)%Q = 0.5%Q.
Proof.
  split; [|split].
  - apply (drone_weight_complementary (Vec4 50 30 0 1)%Q). simpl. Lqa.lra.
  - apply (drone_weight_complementary (Vec4 50 180 0 1)%Q). simpl. Lqa.lra.
  - apply (drone_weight_complementary (Vec4 50 300 0 1)%Q); simpl; Lqa.lra.
Defined.

(** ** The quadrant bearing sensor *)

(** C8: the region-2 function tests its angular sector on the course field
    ([state[2]]) and its range decay on the bearing field ([state[1]]), and
    reads nothing else; the region-1 and region-3 functions test the sector on
    the bearing field ([state[1]]) and the decay on the range field
    ([state[0]]), and read nothing else. *)
Theorem obs_region_fields (sr : Q) (s : vec4 Q) :
  Bearing.obs2 sr s = region_confidence sr sector2 (course_deg s) (bearing_deg s)
  /\ Bearing.obs1 sr s = region_confidence sr sector1 (bearing_deg s) (range s)
  /\ Bearing.obs3 sr s = region_confidence sr sector3 (bearing_deg s) (range s)
  /\ (forall r' v', Bearing.obs2 sr (Vec4 r' (bearing_deg s) (course_deg s) v')
                    = Bearing.obs2 sr s)
  /\ (forall c' v', Bearing.obs1 sr (Vec4 (range s) (bearing_deg s) c' v')
                    = Bearing.obs1 sr s)
  /\ (forall c' v', Bearing.obs3 sr (Vec4 (range s) (bearing_deg s) c' v')
                    = Bearing.obs3 sr s).
Proof.
  repeat split; reflexivity.
Qed.

(** The asymmetry is visible on two states that differ in the course only:
    region 2 tells them apart, regions 1 and 3 do not. *)
Example obs2_reads_course :
  Bearing.obs2 150 (Vec4 50 100 90 1)%Q = (2 - 2 * 100 / 150)%Q
  /\ Bearing.obs2 150 (Vec4 50 100 0 1)%Q = 0.0001%Q
  /\ Bearing.obs3 150 (Vec4 50 180 90 1)%Q = Bearing.obs3 150 (Vec4 50 180 0 1)%Q.
Proof. repeat split; reflexivity. Qed.

(** ** Symbols outside the alphabet *)

Lemma gen_state_drone_unbound (o : Z) (g : rng) :
  ~ In o Drone.obsers -> Drone.gen_state o g = Raise (UnboundLocalError "bearing").
Proof.
  intros H. unfold Drone.gen_state, Drone.obsers in *. simpl in H.
  destruct (o =? 1)%Z eqn:E1; [apply Z.eqb_eq in E1; exfalso; intuition congruence|].
  destruct (o =? 0)%Z eqn:E0; [apply Z.eqb_eq in E0; exfalso; intuition congruence|].
  reflexivity.
Qed.

Lemma gen_state_bearing_unbound (o : Z) (g : rng) :
  ~ In o Bearing.obsers -> Bearing.gen_state o g = Raise (UnboundLocalError "bearing").
Proof.
  intros H. unfold Bearing.gen_state, Bearing.obsers in *. simpl in H.
  destruct (o =? 0)%Z eqn:E0; [apply Z.eqb_eq in E0; exfalso; intuition congruence|].
  destruct (o =? 1)%Z eqn:E1; [apply Z.eqb_eq in E1; exfalso; intuition congruence|].
  destruct (o =? 2)%Z eqn:E2; [apply Z.eqb_eq in E2; exfalso; intuition congruence|].
  destruct (o =? 3)%Z eqn:E3; [apply Z.eqb_eq in E3; exfalso; intuition congruence|].
  reflexivity.
Qed.

(** C5 (as the code has it): with a symbol outside the alphabet, the inverse
    sampler of either sensor raises (the local [bearing] was never bound);
    the likelihood of the binary-detection sensor returns [1 - p1(state)], as
    for symbol 0; the likelihood of the quadrant bearing sensor returns [None]
    without raising. *)
Theorem outside_alphabet_behaviour (d : drone) (b : bearing) (o : Z)
    (s : vec4 Q) (g : rng) :
  (~ In o (alphabet d) ->
     call_gen_state d o g = Raise (UnboundLocalError "bearing")
     /\ call_weight d o s = Ok (PNum (1 - Drone.obs1_prob s)%Q))
  /\ (~ In o (alphabet b) ->
     call_gen_state b o g = Raise (UnboundLocalError "bearing")
     /\ call_weight b o s = Ok PNone).
Proof.
  split; intros H; simpl in *.
  - split; [now apply gen_state_drone_unbound|].
    unfold Drone.weight, Drone.obsers in *. simpl in H.
    destruct (o =? 1)%Z eqn:E1; [apply Z.eqb_eq in E1; exfalso; intuition congruence|reflexivity].
  - split; [now apply gen_state_bearing_unbound|].
    unfold Bearing.weight, Bearing.obsers in *. simpl in H.
    destruct (o =? 0)%Z eqn:E0; [apply Z.eqb_eq in E0; exfalso; intuition congruence|].
    destruct (o =? 1)%Z eqn:E1; [apply Z.eqb_eq in E1; exfalso; intuition congruence|].
    destruct (o =? 2)%Z eqn:E2; [apply Z.eqb_eq in E2; exfalso; intuition congruence|].
    destruct (o =? 3)%Z eqn:E3; [apply Z.eqb_eq in E3; exfalso; intuition congruence|].
    reflexivity.
Qed.

Lemma outside_alphabet_behaviour_witness :
  (call_gen_state DroneSensor 7 (of_list []) = Raise (UnboundLocalError "bearing")
   /\ call_weight DroneSensor 7 (Vec4 50 0 0 1)%Q = Ok (PNum (1 - 0.9)%Q))
  /\ (call_gen_state (BearingSensor 150) 7 (of_list [])
        = Raise (UnboundLocalError "bearing")
      /\ call_weight (BearingSensor 150) 7 (Vec4 50 0 0 1)%Q = Ok PNone).
Proof.
  split.
  - apply (outside_alphabet_behaviour DroneSensor (BearingSensor 150) 7
             (Vec4 50 0 0 1)%Q (of_list [])).
    simpl. intros H. repeat destruct H as [H|H]; discriminate || contradiction.
  - apply (outside_alphabet_behaviour DroneSensor (BearingSensor 150) 7
             (Vec4 50 0 0 1)%Q (of_list [])).
    simpl. intros H. repeat destruct H as [H|H]; discriminate || contradiction.
Defined.

(** C5 as stated fails: symbol 7 is in neither alphabet, and both likelihood
    functions return normally on it. *)
Lemma weight_outside_alphabet_no_error :
  ~ In 7%Z (alphabet DroneSensor)
  /\ ~ (exists e, call_weight DroneSensor 7 (Vec4 50 0 0 1)%Q = Raise e)
  /\ ~ In 7%Z (alphabet (BearingSensor 150))
  /\ ~ (exists e, call_weight (BearingSensor 150) 7 (Vec4 50 0 0 1)%Q = Raise e).
Proof.
  repeat split.
  - simpl. intros H. repeat destruct H as [H|H]; discriminate || contradiction.
  - intros [e H]. discriminate H.
  - simpl. intros H. repeat destruct H as [H|H]; discriminate || contradiction.
  - intros [e H]. discriminate H.
Qed.

(** ** Inverse sampling against the forward model *)

Lemma randint_range (a b : Z) (g : rng) :
  (a <= b)%Z ->
  exists n, randint a b g = Ok (n, snd (next g)) /\ (a <= n <= b)%Z.
Proof.
  intros Hab. unfold randint, next. eexists. split; [reflexivity|].
  pose proof (Z.mod_pos_bound (tape g (cursor g)) (b - a + 1)) as Hm. lia.
Qed.

(** Every integer of [a..b] is an outcome of [randint a b]. *)
Lemma randint_onto (a b n : Z) (l : list Z) :
  (a <= n <= b)%Z ->
  exists g', randint a b (of_list ((n - a)%Z :: l)) = Ok (n, g').
Proof.
  intros H. unfold randint, next, of_list. cbn [tape cursor nth].
  eexists. rewrite Z.mod_small by lia. f_equal. f_equal. lia.
Qed.

Lemma wrapped_bearing_range (lo hi b : Z) :
  (lo <= b <= hi)%Z ->
  let b' := if (b <? 0)%Z then (b + 360)%Z else b in
  ((b < 0 /\ lo + 360 <= b' <= 359) \/ (0 <= b /\ b' = b))%Z.
Proof.
  intros H. simpl. destruct (b <? 0)%Z eqn:E.
  - apply Z.ltb_lt in E. left. lia.
  - apply Z.ltb_ge in E. right. lia.
Qed.

Lemma bind_inv {S A B : Type} (c : M S A) (k : A -> M S B) (s s' : S) (b : B) :
  bind c k s = Ok (b, s') ->
  exists a s1, c s = Ok (a, s1) /\ k a s1 = Ok (b, s').
Proof.
  unfold bind. destruct (c s) as [[a s1]|e]; [|discriminate].
  intros H. now exists a, s1.
Qed.

Lemma ret_inv {S A : Type} (a b : A) (s s' : S) :
  ret a s = Ok (b, s') -> b = a /\ s' = s.
Proof. unfold ret. intros H. injection H as <- <-. now split. Qed.

Lemma randint_inv (a b n : Z) (g g' : rng) :
  (a <= b)%Z -> randint a b g = Ok (n, g') -> (a <= n <= b)%Z.
Proof.
  intros Hab H. destruct (randint_range g Hab) as [m [E Hm]].
  rewrite E in H. injection H as <- _. exact Hm.
Qed.

Lemma choice2_inv {A : Type} (x y z : A) (g g' : rng) :
  choice x [y] g = Ok (z, g') -> z = x \/ z = y.
Proof.
  unfold choice, next. intros H. injection H as <- _.
  destruct (Z.to_nat _) as [|[|[|k]]]; simpl; auto.
Qed.

(** Takes a successful run of a sampler apart, one draw at a time. *)
Ltac monad_inv H :=
  repeat match type of H with
  | bind _ _ _ = Ok _ =>
      let a := fresh "a" in let g := fresh "g" in
      let H1 := fresh "Hd" in
      apply bind_inv in H; destruct H as [a [g [H1 H]]]
  | ret _ _ = Ok _ => apply ret_inv in H; destruct H as [? ?]; subst
  | raise _ _ = Ok _ => discriminate H
  end.

Lemma wrap_inv (lo hi b b' : Z) (g g' : rng) :
  (lo <= b <= hi)%Z ->
  ret (if (b <? 0)%Z then (b + 360)%Z else b) g = Ok (b', g') ->
  ((b < 0 /\ lo + 360 <= b' <= 359) \/ (0 <= b /\ b' = b))%Z.
Proof.
  intros Hb H. apply ret_inv in H. destruct H as [-> _].
  now apply wrapped_bearing_range with (hi := hi).
Qed.

(** What [Drone.gen_state] can return. *)
Lemma drone_gen_state_inv (o : Z) (g g' : rng) (s : vec4 Z) :
  Drone.gen_state o g = Ok (s, g') ->
  ((o = 1 /\ (0 <= bearing_deg s <= 60 \/ 300 <= bearing_deg s <= 359))
   \/ (o = 0 /\ 120 <= bearing_deg s <= 240))%Z
  /\ (25 <= range s <= 100)%Z
  /\ (exists k, 0 <= k <= 11 /\ course_deg s = k * 30)%Z
  /\ speed s = 1%Z.
Proof.
  unfold Drone.gen_state. intros H.
  apply bind_inv in H. destruct H as [ob [g1 [Hb H]]].
  apply bind_inv in H. destruct H as [b' [g2 [Hw H]]].
  apply bind_inv in H. destruct H as [r [g3 [Hr H]]].
  apply bind_inv in H. destruct H as [c [g4 [Hc H]]].
  apply ret_inv in H. destruct H as [-> _]. simpl.
  apply randint_inv in Hr; [|lia]. apply randint_inv in Hc; [|lia].
  repeat split; try lia; [|now exists c].
  destruct (o =? 1)%Z eqn:E1; [|destruct (o =? 0)%Z eqn:E0].
  - apply Z.eqb_eq in E1. monad_inv Hb.
    apply randint_inv in Hd; [|lia].
    apply wrap_inv with (lo := (-60)%Z) (hi := 60%Z) in Hw; [|exact Hd]. lia.
  - apply Z.eqb_eq in E0. monad_inv Hb.
    apply randint_inv in Hd; [|lia].
    apply wrap_inv with (lo := 120%Z) (hi := 240%Z) in Hw; [|exact Hd]. lia.
  - monad_inv Hb. discriminate Hw.
Qed.

(** The binary-detection sensor is self-consistent: whatever the draws, the
    sampled state has a likelihood above the floor for the symbol it was
    sampled from. *)
Lemma drone_inverse_sample_consistent (o : Z) (g g' : rng) (s : vec4 Z) :
  Drone.gen_state o g = Ok (s, g') ->
  (Bearing.floor_value < Drone.weight o (as_Q s))%Q.
Proof.
  intros H. apply drone_gen_state_inv in H. destruct H as [Ho _].
  unfold Drone.weight, Bearing.floor_value.
  destruct (obs1_prob_cases (as_Q s)) as [E|[E|E]];
    destruct (o =? 1)%Z; rewrite E; reflexivity.
Qed.

Lemma const_le_inject_Z (a b : Z) : (a <= b)%Z -> (a # 1 <= inject_Z b)%Q.
Proof. intros H. change (a # 1) with (inject_Z a). now rewrite <- Zle_Qle. Qed.

Lemma inject_Z_le_const (a b : Z) : (a <= b)%Z -> (inject_Z a <= b # 1)%Q.
Proof. intros H. change (b # 1) with (inject_Z b). now rewrite <- Zle_Qle. Qed.

(** What [Bearing.gen_state] can return. *)
Lemma bearing_gen_state_inv (o : Z) (g g' : rng) (s : vec4 Z) :
  Bearing.gen_state o g = Ok (s, g') ->
  ((o = 0 /\ (0 <= bearing_deg s <= 60 \/ 300 <= bearing_deg s <= 359))
   \/ (o = 1 /\ (60 <= bearing_deg s <= 90 \/ 270 <= bearing_deg s <= 300))
   \/ (o = 2 /\ (90 <= bearing_deg s <= 120 \/ 240 <= bearing_deg s <= 270))
   \/ (o = 3 /\ 120 <= bearing_deg s <= 240))%Z
  /\ (25 <= range s <= 100)%Z
  /\ (exists k, 0 <= k <= 11 /\ course_deg s = k * 30)%Z
  /\ speed s = 1%Z.
Proof.
  unfold Bearing.gen_state. intros H.
  apply bind_inv in H. destruct H as [ob [g1 [Hb H]]].
  apply bind_inv in H. destruct H as [b' [g2 [Hw H]]].
  apply bind_inv in H. destruct H as [r [g3 [Hr H]]].
  apply bind_inv in H. destruct H as [c [g4 [Hc H]]].
  apply ret_inv in H. destruct H as [-> _]. simpl.
  apply randint_inv in Hr; [|lia]. apply randint_inv in Hc; [|lia].
  repeat split; try lia; [|now exists c].
  destruct (o =? 0)%Z eqn:E0;
    [|destruct (o =? 1)%Z eqn:E1;
      [|destruct (o =? 2)%Z eqn:E2; [|destruct (o =? 3)%Z eqn:E3]]].
  - apply Z.eqb_eq in E0. monad_inv Hb.
    apply randint_inv in Hd; [|lia].
    apply wrap_inv with (lo := (-60)%Z) (hi := 60%Z) in Hw; [|exact Hd]. lia.
  - apply Z.eqb_eq in E1. monad_inv Hb.
    apply randint_inv in Hd; [|lia]. apply randint_inv in Hd0; [|lia].
    apply choice2_inv in Hd1.
    assert (Hr1 : (60 <= a1 <= 300)%Z) by (destruct Hd1; subst; lia).
    apply wrap_inv with (lo := 60%Z) (hi := 300%Z) in Hw; [|exact Hr1].
    destruct Hd1; subst; lia.
  - apply Z.eqb_eq in E2. monad_inv Hb.
    apply randint_inv in Hd; [|lia]. apply randint_inv in Hd0; [|lia].
    apply choice2_inv in Hd1.
    assert (Hr1 : (90 <= a1 <= 270)%Z) by (destruct Hd1; subst; lia).
    apply wrap_inv with (lo := 90%Z) (hi := 270%Z) in Hw; [|exact Hr1].
    destruct Hd1; subst; lia.
  - apply Z.eqb_eq in E3. monad_inv Hb.
    apply randint_inv in Hd; [|lia].
    apply wrap_inv with (lo := 120%Z) (hi := 240%Z) in Hw; [|exact Hd]. lia.
  - monad_inv Hb. discriminate Hw.
Qed.

(** Region 0 and region 3 do agree with their samplers (at the default
    sensor range): the sampled state is above the floor. *)
Lemma bearing_inverse_sample_consistent_0_3 (o : Z) (g g' : rng) (s : vec4 Z) :
  o = 0%Z \/ o = 3%Z ->
  Bearing.gen_state o g = Ok (s, g') ->
  exists q, Bearing.weight Bearing.default_sensor_range o (as_Q s) = PNum q
            /\ (Bearing.floor_value < q)%Q.
Proof.
  intros Ho H. apply bearing_gen_state_inv in H.
  destruct H as [Hb [Hr _]]. destruct s as [r b c v]. simpl in Hb, Hr.
  unfold Bearing.default_sensor_range, Bearing.floor_value.
  assert (Hr1 := const_le_inject_Z (proj1 Hr)).
  assert (Hr2 := inject_Z_le_const (proj2 Hr)).
  destruct Ho as [-> | ->].
  - exists 1%Q. split; [|reflexivity].
    assert (Hb' : (0 <= b <= 60 \/ 300 <= b <= 359)%Z) by lia.
    unfold Bearing.weight, Bearing.obs0, as_Q, vec4_map; simpl.
    destruct (Qltb (inject_Z b) 0) eqn:E; qbool.
    + exfalso. assert (H0 := const_le_inject_Z (a := 0) (b := b)).
      destruct Hb' as [Hb'|Hb']; specialize (H0 ltac:(lia)); Lqa.lra.
    + destruct (Qleb (inject_Z b) 60) eqn:E1; [reflexivity|].
      destruct (Qgeb (inject_Z b) 300) eqn:E2; [reflexivity|]. qbool. exfalso.
      destruct Hb' as [Hb'|Hb'].
      * pose proof (inject_Z_le_const (proj2 Hb')). Lqa.lra.
      * pose proof (const_le_inject_Z (proj1 Hb')). Lqa.lra.
  - assert (Hb' : (120 <= b <= 240)%Z) by lia.
    assert (Hb1 := const_le_inject_Z (proj1 Hb')).
    assert (Hb2 := inject_Z_le_const (proj2 Hb')).
    unfold Bearing.weight, Bearing.obs3, as_Q, vec4_map; simpl.
    eexists. split; [reflexivity|].
    destruct (Qltb (inject_Z b) 0) eqn:E; qbool; [exfalso; Lqa.lra|].
    destruct (Qleb 120 (inject_Z b)) eqn:E1; qbool; [|exfalso; Lqa.lra].
    destruct (Qleb (inject_Z b) 240) eqn:E2; qbool; [|exfalso; Lqa.lra].
    destruct (Qltb (inject_Z r) (150 / 2)) eqn:E3; [reflexivity|].
    destruct (Qltb (inject_Z r) 150) eqn:E4; qbool; simpl; [|exfalso; Lqa.lra].
    unfold Qdiv. change (/ 150)%Q with (1 # 150)%Q. Lqa.lra.
Qed.

(** C2 at a failing input.  With the draws 100 (bearing, first sub-sector),
    50 (range) and 0 (course), the inverse sampler of the quadrant bearing
    sensor returns [50, 100, 0, 1] for symbol 2, and the likelihood of symbol 2
    in that state is the floor itself: [obs2] looks for its sector in the
    course field.  With the bearing draw 60 for symbol 1 the sampled state
    [50, 60, 0, 1] is at the floor too: [obs1] excludes the end points that
    [randint(60, 90)] includes. *)
Theorem bearing_inverse_sample_at_floor :
  (exists g', Bearing.gen_state 2 (of_list [10; 0; 0; 25; 0]%Z)
              = Ok (Vec4 50 100 0 1, g')%Z)
  /\ Bearing.weight Bearing.default_sensor_range 2 (as_Q (Vec4 50 100 0 1)%Z)
     = PNum Bearing.floor_value
  /\ (exists g', Bearing.gen_state 1 (of_list [0; 0; 0; 25; 0]%Z)
                 = Ok (Vec4 50 60 0 1, g')%Z)
  /\ Bearing.weight Bearing.default_sensor_range 1 (as_Q (Vec4 50 60 0 1)%Z)
     = PNum Bearing.floor_value.
Proof.
  repeat split; try reflexivity; eexists; reflexivity.
Qed.

(** ** The reward *)

(** C1 (as the code has it): with an action index, the penalty is forced to 0
    exactly for the indices strictly between 2 and 5, that is 3 and 4; for
    every other index the configured penalty is added to the range term.  In
    particular the reward of [(50, 0, 0, 1)] is 0.1 for action 3 and
    0.1 - 0.05 for action 5. *)
Theorem reward_func_penalty (s : vec4 Q) (idx : Z) (p : Q) :
  ((idx = 3 \/ idx = 4)%Z ->
     (RFState.reward_func s (Some idx) p == RFState.action_range_reward s)%Q)
  /\ (idx <> 3%Z -> idx <> 4%Z ->
     (RFState.reward_func s (Some idx) p == RFState.action_range_reward s + p)%Q)
  /\ (RFState.reward_func (Vec4 50 0 0 1) (Some 3%Z) RFState.default_action_penalty
      == 0.1)%Q
  /\ (RFState.reward_func (Vec4 50 0 0 1) (Some 5%Z) RFState.default_action_penalty
      == 0.1 - 0.05)%Q.
Proof.
  unfold RFState.reward_func, RFState.action_range_reward.
  repeat split; try reflexivity.
  - intros [-> | ->]; simpl;
      destruct (Qgeb (range s) 150); [|destruct (Qleb (range s) 10)| |
      destruct (Qleb (range s) 10)]; ring.
  - intros H3 H4.
    assert (E : ((2 <? idx)%Z && (idx <? 5)%Z)%bool = false).
    { destruct (2 <? idx)%Z eqn:A; [|reflexivity].
      destruct (idx <? 5)%Z eqn:B; [|reflexivity].
      apply Z.ltb_lt in A, B. lia. }
    rewrite E.
    destruct (Qgeb (range s) 150); [|destruct (Qleb (range s) 10)]; ring.
Qed.

Lemma reward_func_penalty_witness :
  (RFState.reward_func (Vec4 151 0 0 1) (Some 4%Z) (-0.05) == -2)%Q
  /\ (RFState.reward_func (Vec4 151 0 0 1) (Some 5%Z) (-0.05) == -2 + -0.05)%Q.
Proof.
  split.
  - apply (reward_func_penalty (Vec4 151 0 0 1)%Q 4 (-0.05)%Q). now right.
  - apply (reward_func_penalty (Vec4 151 0 0 1)%Q 5 (-0.05)%Q); discriminate.
Defined.

(** C1 as stated fails at action index 4: it is not 3, and yet the configured
    penalty is dropped. *)
Lemma reward_func_index_4_unpenalised :
  (RFState.reward_func (Vec4 50 0 0 1) (Some 4%Z) RFState.default_action_penalty
   == 0.1)%Q
  /\ ~ (RFState.reward_func (Vec4 50 0 0 1) (Some 4%Z) RFState.default_action_penalty
        == 0.1 - 0.05)%Q.
Proof.
  split; [reflexivity|]. intros H. discriminate H.
Qed.

(** ** The registry *)

(** C9 (as the code has it): [get_state] lower-cases the name before the
    lookup.  It returns the [RFState] class for ['rfstate'] and for every name
    that lower-cases to it; for every other name it raises [ValueError] with a
    message that holds the lower-cased name and the list of the keys; a class
    is only ever returned as the registry entry of the lower-cased name. *)
Theorem get_state_lookup :
  get_state "rfstate" = Ok RFState_class
  /\ (forall name, lower name = "rfstate"%string -> get_state name = Ok RFState_class)
  /\ (forall name, lower name <> "rfstate"%string ->
        get_state name
        = Raise (ValueError ("Invalid action method name, " ++ lower name
                             ++ ", entered. Must be in dict_keys(['rfstate'])")))
  /\ (forall name, dict_get AVAIL_STATES (lower name) = None ->
        get_state name
        = Raise (ValueError ("Invalid action method name, " ++ lower name
                             ++ ", entered. Must be in dict_keys(['rfstate'])")))
  /\ (forall name c, get_state name = Ok c ->
        dict_get AVAIL_STATES (lower name) = Some c).
Proof.
  split; [reflexivity|]. unfold get_state. split; [|split; [|split]].
  - intros name H. rewrite H. reflexivity.
  - intros name H. unfold AVAIL_STATES, dict_get.
    destruct (String.eqb_spec (lower name) "rfstate") as [E|E];
      [contradiction|reflexivity].
  - intros name H. rewrite H. reflexivity.
  - intros name c. destruct (dict_get AVAIL_STATES (lower name)).
    + intros H. injection H as ->. reflexivity.
    + discriminate.
Qed.

Lemma get_state_lookup_witness :
  get_state "RFState" = Ok RFState_class
  /\ get_state "Kalman"
     = Raise (ValueError
                "Invalid action method name, kalman, entered. Must be in dict_keys(['rfstate'])")
  /\ get_state "KALMAN"
     = Raise (ValueError
                "Invalid action method name, kalman, entered. Must be in dict_keys(['rfstate'])")
  /\ dict_get AVAIL_STATES (lower "RFState") = Some RFState_class.
Proof.
  destruct get_state_lookup as [_ [H1 [H2 [H3 H4]]]].
  split; [|split; [|split]].
  - apply (H1 "RFState"%string). reflexivity.
  - apply (H2 "Kalman"%string). discriminate.
  - apply (H3 "KALMAN"%string). reflexivity.
  - apply (H4 "RFState"%string). reflexivity.
Defined.

(** C9 as stated fails on a name that differs from a key by case only:
    ['RFState'] is not a key of the registry, and no error is raised. *)
Lemma get_state_ignores_case :
  dict_get AVAIL_STATES "RFState" = None
  /\ ~ In "RFState"%string (dict_keys AVAIL_STATES)
  /\ get_state "RFState" = Ok RFState_class.
Proof.
  repeat split. simpl. intros [H|[]]. discriminate H.
Qed.

(** ** The circular-motion counter *)

Lemma circular_control_step (size : Z) (m : RFState.t) :
  size <> 0%Z ->
  RFState.circular_control size m
  = Ok ((if (RFState.target_move_iter m mod size =? 0)%Z then 30%Z else 0%Z,
         RFState.target_speed m),
        RFState.Model (RFState.prob m) (RFState.target_speed m)
          (RFState.target_movement m) (RFState.target_move_iter m + 1)%Z
          (RFState.target_state m) (RFState.sensor_state m)).
Proof.
  intros H. unfold RFState.circular_control.
  destruct (size =? 0)%Z eqn:E; [apply Z.eqb_eq in E; contradiction|reflexivity].
Qed.

(** C7: from a fresh counter, ten calls of [circular_control(5)] return the
    turn 30 on the 1st and the 6th call and 0 on the others, each paired with
    [target_speed], and leave the counter at 10; any one call of
    [circular_control(5)] moves the counter up by 1 and changes nothing
    else. *)
Theorem circular_control_ten_calls (p ts : R) (mv : string) (tst sst : vec4 R) :
  repeatM 10 (RFState.circular_control 5) (RFState.Model p ts mv 0 tst sst)
  = Ok ([(30, ts); (0, ts); (0, ts); (0, ts); (0, ts);
         (30, ts); (0, ts); (0, ts); (0, ts); (0, ts)]%Z,
        RFState.Model p ts mv 10 tst sst)
  /\ (forall m : RFState.t,
        exists d,
          RFState.circular_control 5 m
          = Ok ((d, RFState.target_speed m),
                RFState.Model (RFState.prob m) (RFState.target_speed m)
                  (RFState.target_movement m) (RFState.target_move_iter m + 1)%Z
                  (RFState.target_state m) (RFState.sensor_state m))
          /\ (d = 30%Z <-> (RFState.target_move_iter m mod 5 = 0)%Z)
          /\ (d = 0%Z <-> (RFState.target_move_iter m mod 5 <> 0)%Z)).
Proof.
  split; [reflexivity|].
  intros m. eexists. split; [apply circular_control_step; discriminate|].
  destruct (Z.eqb_spec (RFState.target_move_iter m mod 5) 0) as [E|E];
    split; split; intros; try reflexivity; try assumption; try discriminate;
    contradiction.
Qed.

(** ** Angles on the real line *)

Section Angles.

Import Np.
Local Open Scope R_scope.

Lemma Rmod_360_range (x : R) : 0 <= Rmod x 360 < 360.
Proof.
  unfold Rmod. pose proof (Zfloor_bound (x / 360)) as H. lra.
Qed.

Lemma Rmod_360_small (x : R) : 0 <= x < 360 -> Rmod x 360 = x.
Proof.
  intros H. unfold Rmod.
  rewrite (Zfloor_eq 0 (x / 360)) by (simpl; lra). lra.
Qed.

Lemma wrap_nonneg (x : R) :
  0 <= x -> (if Rlt_dec x 0 then x + 360 else x) = x.
Proof. intros H. destruct (Rlt_dec x 0); lra. Qed.

Lemma wrap_half_turn (x : R) :
  -180 < x <= 180 -> 0 <= (if Rlt_dec x 0 then x + 360 else x) < 360.
Proof. intros H. destruct (Rlt_dec x 0); lra. Qed.

Lemma arctan2_range (y x : R) : - PI < arctan2 y x <= PI.
Proof.
  unfold arctan2. pose proof PI_RGT_0 as Hpi.
  pose proof (atan_bound (y / x)) as Hb.
  destruct (Rlt_dec 0 x) as [Hx|Hx]; [lra|].
  destruct (Rlt_dec x 0) as [Hx'|Hx'].
  - destruct (Rle_dec 0 y) as [Hy|Hy].
    + assert (y / x <= 0).
      { unfold Rdiv. assert (/ x < 0) by now apply Rinv_lt_0_compat. nra. }
      assert (atan (y / x) <= 0).
      { rewrite <- atan_0. destruct H as [H|H].
        - left. now apply atan_increasing.
        - rewrite H. right. reflexivity. }
      lra.
    + assert (0 < y / x).
      { unfold Rdiv. assert (/ x < 0) by now apply Rinv_lt_0_compat. nra. }
      assert (0 < atan (y / x)).
      { rewrite <- atan_0. now apply atan_increasing. }
      lra.
  - destruct (Rlt_dec 0 y); [lra|]. destruct (Rlt_dec y 0); lra.
Qed.

Lemma degrees_arctan2_range (y x : R) : -180 < degrees (arctan2 y x) <= 180.
Proof.
  pose proof (arctan2_range y x) as H. pose proof PI_RGT_0 as Hpi.
  unfold degrees.
  replace (arctan2 y x * 180 / PI) with (180 * (arctan2 y x / PI)) by (field; lra).
  assert (-1 < arctan2 y x / PI <= 1); [|lra].
  split.
  - apply Rmult_lt_reg_r with PI; [exact Hpi|].
    unfold Rdiv. rewrite Rmult_assoc, Rinv_l by lra. lra.
  - apply Rmult_le_reg_r with PI; [exact Hpi|].
    unfold Rdiv. rewrite Rmult_assoc, Rinv_l by lra. lra.
Qed.

(** The bearing the transitions store is always in [0, 360). *)
Lemma stored_bearing_range (y x : R) :
  let theta := degrees (arctan2 y x) in
  0 <= (if Rlt_dec theta 0 then theta + 360 else theta) < 360.
Proof. apply wrap_half_turn, degrees_arctan2_range. Qed.

(** The course the transitions store is always in [0, 360). *)
Lemma stored_course_range (c : R) :
  let crs := Rmod c 360 in
  0 <= (if Rlt_dec crs 0 then crs + 360 else crs) < 360.
Proof.
  simpl. pose proof (Rmod_360_range c).
  destruct (Rlt_dec (Rmod c 360) 0); lra.
Qed.

End Angles.

(** ** The target transition *)

Section Transition.

Import Np.
Local Open Scope R_scope.

Lemma random_unit_interval (g : rng) :
  exists u, random g = Ok (u, snd (next g)) /\ 0 <= u < 1.
Proof.
  unfold random, next. eexists. split; [reflexivity|]. cbn [fst snd].
  pose proof (Z.mod_pos_bound (tape g (cursor g)) (2 ^ 53) ltac:(lia)) as [H0 H1].
  apply IZR_le in H0. apply IZR_lt in H1.
  assert (Hp : 0 < IZR (2 ^ 53)) by (apply IZR_lt; lia).
  split.
  - apply Rmult_le_reg_r with (IZR (2 ^ 53)); [exact Hp|].
    unfold Rdiv. rewrite Rmult_assoc, Rinv_l by lra. lra.
  - apply Rmult_lt_reg_r with (IZR (2 ^ 53)); [exact Hp|].
    unfold Rdiv. rewrite Rmult_assoc, Rinv_l by lra. lra.
Qed.

(** The random course change never fails, moves the course by 0 or by 30
    either way, and does nothing when [prob] is 1 or more. *)
Lemma perturb_run (p crs : R) (g : rng) :
  exists c' g',
    RFState.perturb p crs g = Ok (c', g')
    /\ (c' = crs \/ c' = crs - 30 \/ c' = crs + 30)
    /\ (1 <= p -> c' = crs).
Proof.
  unfold RFState.perturb, bind.
  destruct (random_unit_interval g) as [u [E Hu]]. rewrite E.
  destruct (Rge_dec u p) as [Hge|Hlt].
  - destruct (choice (-1)%Z [1%Z] (snd (next g))) as [[k g']|e] eqn:Ek;
      [|discriminate Ek].
    pose proof (choice2_inv Ek) as Hk. unfold ret.
    exists (crs + IZR (k * 30)), g'. split; [reflexivity|]. split.
    + destruct Hk as [-> | ->]; simpl; [right; left|right; right]; lra.
    + intros Hp. exfalso. lra.
  - exists crs, (snd (next g)). split; [reflexivity|]. split; [now left|reflexivity].
Qed.

(** One call of [update_state], spelled out: it always returns, the state it
    returns is computed from a course [crs1] chosen by the movement of the
    target, and the only attribute of the object it can touch is the
    counter. *)
Lemma update_state_run (st : vec4 R) (ctl : R * R) (tu : bool)
    (w : RFState.world) :
  let wrap := fun x : R => if Rlt_dec x 0 then x + 360 else x in
  let m := RFState.self w in
  let bumped :=
    RFState.Model (RFState.prob m) (RFState.target_speed m)
      (RFState.target_movement m) (RFState.target_move_iter m + 1)%Z
      (RFState.target_state m) (RFState.sensor_state m) in
  let circular := (tu && String.eqb (RFState.target_movement m) "circular")%bool in
  let theta0 := wrap (Rmod (Rmod (bearing_deg st) 360 - fst ctl) 360) in
  let crs0 := Rmod (wrap (Rmod (course_deg st) 360 - fst ctl)) 360 in
  exists crs1 g',
    let crsN := wrap (Rmod crs1 360) in
    let pos0 := range st * cos (radians theta0)
                + RFState.target_speed m * cos (radians crsN) - snd ctl in
    let pos1 := range st * sin (radians theta0)
                + RFState.target_speed m * sin (radians crsN) in
    let t := degrees (arctan2 pos1 pos0) in
    RFState.update_state st ctl tu w
    = Ok (Vec4 (sqrt (pos0 ^ 2 + pos1 ^ 2)) (wrap t) crsN (snd ctl),
          RFState.World (if circular then bumped else m) g')
    /\ (circular = true ->
        g' = RFState.gen w
        /\ crs1 = crs0 + IZR (if (RFState.target_move_iter m mod 5 =? 0)%Z
                              then 30 else 0))
    /\ (circular = false ->
        (crs1 = crs0 \/ crs1 = crs0 - 30 \/ crs1 = crs0 + 30)
        /\ (1 <= RFState.prob m -> crs1 = crs0)).
Proof.
  destruct w as [m g]. cbn zeta. cbn [RFState.self RFState.gen].
  set (crs0 := Rmod (if Rlt_dec (Rmod (course_deg st) 360 - fst ctl) 0
                     then Rmod (course_deg st) 360 - fst ctl + 360
                     else Rmod (course_deg st) 360 - fst ctl) 360).
  destruct (tu && String.eqb (RFState.target_movement m) "circular")%bool eqn:Ec.
  - apply andb_true_iff in Ec. destruct Ec as [-> Emv].
    eexists. exists g. split; [|split; [intros _; split; reflexivity|discriminate]].
    unfold RFState.update_state, bind, RFState.ask, ret, pol2cart.
    cbn [RFState.self RFState.gen]. rewrite Emv.
    unfold RFState.with_self, RFState.circular_control.
    cbn [Z.eqb RFState.self RFState.gen fst snd RFState.target_speed].
    reflexivity.
  - destruct (perturb_run (RFState.prob m) crs0 g) as [c' [g' [Ep Hc]]].
    exists c', g'. split; [|split; [discriminate|intros _; exact Hc]].
    unfold RFState.update_state, bind, RFState.ask, ret, pol2cart.
    cbn [RFState.self RFState.gen].
    assert (Er : RFState.with_rng (RFState.perturb (RFState.prob m) crs0)
                   (RFState.World m g) = Ok (c', RFState.World m g')).
    { unfold RFState.with_rng. cbn [RFState.self RFState.gen].
      rewrite Ep. reflexivity. }
    unfold crs0 in Er.
    destruct tu; [simpl in Ec; rewrite Ec|]; rewrite Er; reflexivity.
Qed.

(** The constructor always returns, and the state it draws is normalised
    with speed 1. *)
Lemma init_run (p : R) (ts : option R) (mv : option string) (g : rng) :
  exists st g',
    RFState.init p ts mv g
    = Ok (RFState.Model p
            (match ts with Some v => v | None => 1 end)
            (match mv with Some x => x | None => "random"%string end)
            0%Z st RFState.init_sensor_state, g')
    /\ 25 <= range st <= 100
    /\ 0 <= bearing_deg st < 360
    /\ 0 <= course_deg st < 360
    /\ speed st = 1.
Proof.
  unfold RFState.init, RFState.init_target_state, bind, ret.
  destruct (randint_range g (a := 25) (b := 100) ltac:(lia)) as [r [Er Hr]].
  rewrite Er.
  destruct (randint_range (snd (next g)) (a := 0) (b := 359) ltac:(lia))
    as [b [Eb Hb]].
  rewrite Eb.
  destruct (randint_range (snd (next (snd (next g)))) (a := 0) (b := 11) ltac:(lia))
    as [c [Ec Hc]].
  rewrite Ec.
  eexists. eexists. split; [reflexivity|]. unfold vec4_map. cbn [range bearing_deg course_deg speed].
  repeat split.
  - apply IZR_le. lia.
  - apply IZR_le. lia.
  - apply IZR_le. lia.
  - apply IZR_lt. lia.
  - apply IZR_le. lia.
  - apply IZR_lt. lia.
Qed.

End Transition.


(** ** What a target transition touches *)

(** C3 (as the code has it): a call of [update_state] always returns and
    leaves [target_state], [sensor_state] and the configuration of the object
    as they were; the counter [target_move_iter] is left as it was unless
    [target_update] is set and the movement is ['circular'], in which case the
    call goes through [circular_control] and the counter goes up by 1. *)
Theorem update_state_frame (st : vec4 R) (ctl : R * R) (tu : bool)
    (w : RFState.world) :
  exists s' w',
    RFState.update_state st ctl tu w = Ok (s', w')
    /\ RFState.target_state (RFState.self w') = RFState.target_state (RFState.self w)
    /\ RFState.sensor_state (RFState.self w') = RFState.sensor_state (RFState.self w)
    /\ RFState.prob (RFState.self w') = RFState.prob (RFState.self w)
    /\ RFState.target_speed (RFState.self w') = RFState.target_speed (RFState.self w)
    /\ RFState.target_movement (RFState.self w')
       = RFState.target_movement (RFState.self w)
    /\ RFState.target_move_iter (RFState.self w')
       = (if (tu && String.eqb (RFState.target_movement (RFState.self w)) "circular")%bool
          then RFState.target_move_iter (RFState.self w) + 1
          else RFState.target_move_iter (RFState.self w))%Z.
Proof.
  destruct (update_state_run st ctl tu w) as [crs1 [g' [E _]]].
  cbv zeta in E. eexists. eexists. split; [exact E|].
  cbn [RFState.self].
  destruct (tu && String.eqb (RFState.target_movement (RFState.self w)) "circular")%bool;
    repeat split.
Qed.

(** C3 as stated fails for a target on a circular course: one call with
    [target_update] set takes the counter from 0 to 1. *)
Lemma update_state_advances_counter :
  let m := RFState.Model 1 0 "circular" 0 (Vec4 50 0 0 1)%R (Vec4 0 0 0 0)%R in
  exists s' w',
    RFState.update_state (Vec4 50 0 0 1)%R (0, 0)%R true
      (RFState.World m (of_list [])) = Ok (s', w')
    /\ RFState.target_move_iter m = 0%Z
    /\ RFState.target_move_iter (RFState.self w') = 1%Z
    /\ RFState.target_move_iter (RFState.self w') <> RFState.target_move_iter m.
Proof.
  cbv zeta.
  destruct (update_state_run (Vec4 50 0 0 1)%R (0, 0)%R true
              (RFState.World (RFState.Model 1 0 "circular" 0
                                (Vec4 50 0 0 1)%R (Vec4 0 0 0 0)%R) (of_list [])))
    as [crs1 [g' [E _]]].
  cbv zeta in E. eexists. eexists. split; [exact E|].
  cbn. repeat split. discriminate.
Qed.

(** ** Normalised angles *)

(** In exact arithmetic the two transitions do normalise: the bearing and the
    course they give are in [0, 360).  This is what the wraps of the source
    aim at; on binary64 the last wrap can round up to 360.0, see
    [wrap_negative_reaches_360]. *)
Lemma normalised_angles_in_exact_arithmetic :
  (forall (st : vec4 R) (ctl : R * R) (tu : bool) (w : RFState.world),
     exists s' w',
       RFState.update_state st ctl tu w = Ok (s', w')
       /\ (0 <= bearing_deg s' < 360)%R
       /\ (0 <= course_deg s' < 360)%R)
  /\ (forall (ctl : R * R) (m : RFState.t),
        exists m',
          RFState.update_sensor ctl m = Ok (tt, m')
          /\ (0 <= bearing_deg (RFState.sensor_state m') < 360)%R
          /\ (0 <= course_deg (RFState.sensor_state m') < 360)%R).
Proof.
  split.
  - intros st ctl tu w.
    destruct (update_state_run st ctl tu w) as [crs1 [g' [E _]]].
    cbv zeta in E. eexists. eexists. split; [exact E|].
    cbn [bearing_deg course_deg]. split.
    + apply stored_bearing_range.
    + apply stored_course_range.
  - intros ctl m. unfold RFState.update_sensor, Np.pol2cart.
    eexists. split; [reflexivity|].
    cbn [RFState.sensor_state bearing_deg course_deg]. split.
    + apply stored_bearing_range.
    + apply Rmod_360_range.
Qed.

Section Binary64.

Import Floats.

(** C6 at failing inputs.  [update_state((1, 30, 330, 1), (0, 0))] on a model
    with [target_speed = 1] and [prob = 1] reaches its last statement with
    [theta = -1.6526646913637573e-14], the binary64 value of
    [degrees(arctan2(y, x))] for that state; [update_sensor((20, 1))] after
    [update_sensor((350, 1))] from the constructed sensor state reaches it with
    [theta_deg = -8.07404966028961e-16].  Both are negative, so 360 is added,
    and both sums round to 360.0: the bearing that is returned or stored is
    not below 360. *)
Theorem wrap_negative_reaches_360 :
  (-0x1.29b7b4dd6341bp-46 <? 0)%float = true
  /\ Float64.wrap_negative (-0x1.29b7b4dd6341bp-46)%float = 360%float
  /\ Float64.normalised (Float64.wrap_negative (-0x1.29b7b4dd6341bp-46)%float) = false
  /\ (-0x1.d16ff1328a34dp-51 <? 0)%float = true
  /\ Float64.wrap_negative (-0x1.d16ff1328a34dp-51)%float = 360%float
  /\ Float64.normalised (Float64.wrap_negative (-0x1.d16ff1328a34dp-51)%float) = false.
Proof.
  repeat split; vm_compute; reflexivity.
Qed.

End Binary64.

(** ** The still target *)

(** With [prob] at 1 or more, a call with the zero control and the default
    [target_update] gives back the course it was given, with the speed field
    0, and leaves the object as it was. *)
Lemma update_state_zero_control (st : vec4 R) (m : RFState.t) (g : rng) :
  (1 <= RFState.prob m)%R -> (0 <= course_deg st < 360)%R ->
  exists s' g',
    RFState.update_state st (0, 0)%R false (RFState.World m g)
    = Ok (s', RFState.World m g')
    /\ course_deg s' = course_deg st /\ speed s' = 0%R.
Proof.
  intros Hp Hc.
  destruct (update_state_run st (0, 0)%R false (RFState.World m g))
    as [crs1 [g' [E [_ Hstep]]]].
  cbn [RFState.self RFState.gen fst snd andb] in E, Hstep.
  destruct (Hstep eq_refl) as [_ Hcrs]. specialize (Hcrs Hp).
  eexists. exists g'. split; [exact E|]. cbn [course_deg speed].
  split; [|reflexivity].
  assert (E0 : crs1 = course_deg st).
  { rewrite Hcrs, (Rmod_360_small Hc), Rminus_0_r.
    rewrite wrap_nonneg by lra. now apply Rmod_360_small. }
  rewrite E0, (Rmod_360_small Hc). apply wrap_nonneg. lra.
Qed.

Lemma transition_loop_zero_control (n : nat) (st : vec4 R) (m : RFState.t)
    (g : rng) :
  (1 <= RFState.prob m)%R -> (0 <= course_deg st < 360)%R ->
  exists l g',
    transition_loop n (0, 0)%R st (RFState.World m g)
    = Ok (l, RFState.World m g')
    /\ length l = n
    /\ Forall (fun s => course_deg s = course_deg st /\ speed s = 0%R) l.
Proof.
  intros Hp. revert st g. induction n as [|n IH]; intros st g Hc.
  - exists [], g. repeat split. constructor.
  - destruct (update_state_zero_control st m g Hp Hc) as [s1 [g1 [E1 [Hc1 Hs1]]]].
    assert (Hc' : (0 <= course_deg s1 < 360)%R) by (rewrite Hc1; exact Hc).
    destruct (IH s1 g1 Hc') as [l [g2 [E2 [Hl Hall]]]].
    exists (s1 :: l), g2. cbn [transition_loop]. unfold bind at 1. rewrite E1.
    unfold bind at 1. rewrite E2. split; [reflexivity|].
    split; [cbn [length]; now rewrite Hl|].
    constructor; [now split|].
    rewrite Hc1 in Hall. exact Hall.
Qed.

(** C4 (as the code has it): for a model constructed with [prob = 1.0] and
    [target_speed = 0], whatever the draws, every call of the loop with the
    zero control and the default [target_update] returns the course of the
    constructed [target_state] and the speed field 0, the control speed, and
    leaves the object as it was.  The constructed state has speed 1, so the
    first call does not return its input.  Range and bearing are computed
    anew by every call and are not part of the statement. *)
Theorem zero_control_loop_course_speed (mv : option string) (g0 g : rng) (n : nat) :
  exists m g1 l g',
    RFState.init 1 (Some 0%R) mv g0 = Ok (m, g1)
    /\ speed (RFState.target_state m) = 1%R
    /\ transition_loop n (0, 0)%R (RFState.target_state m) (RFState.World m g)
       = Ok (l, RFState.World m g')
    /\ length l = n
    /\ Forall (fun s => course_deg s = course_deg (RFState.target_state m)
                        /\ speed s = 0%R) l.
Proof.
  destruct (init_run 1 (Some 0%R) mv g0) as [st [g1 [E [_ [_ [Hc Hs]]]]]].
  set (m := RFState.Model 1 0 (match mv with Some x => x | None => "random"%string end)
              0 st RFState.init_sensor_state) in *.
  assert (Hp : (1 <= RFState.prob m)%R) by (simpl; lra).
  destruct (transition_loop_zero_control n (RFState.target_state m) m g Hp Hc)
    as [l [g' [El [Hl Hall]]]].
  exists m, g1, l, g'. repeat split; assumption.
Qed.

(** C4 as stated fails on the first call: the constructed state has speed 1,
    the state returned for the zero control has speed 0. *)
Lemma first_transition_changes_speed :
  exists m g1 s' w',
    RFState.init 1 (Some 0%R) None (of_list []) = Ok (m, g1)
    /\ RFState.update_state (RFState.target_state m) (0, 0)%R false
         (RFState.World m g1) = Ok (s', w')
    /\ s' <> RFState.target_state m.
Proof.
  destruct (init_run 1 (Some 0%R) None (of_list [])) as [st [g1 [E [_ [_ [_ Hs]]]]]].
  eexists. exists g1.
  destruct (update_state_run st (0, 0)%R false
              (RFState.World (RFState.Model 1 0 "random" 0 st
                                RFState.init_sensor_state) g1))
    as [crs1 [g' [Eu _]]].
  cbv zeta in Eu. eexists. eexists. split; [exact E|].
  cbn [RFState.target_state]. split; [exact Eu|].
  intros Heq. apply (f_equal (@speed R)) in Heq.
  cbn [speed snd] in Heq. rewrite Hs in Heq. lra.
Qed.

(** * Further properties of the sensors *)

(** ** The region weights are probabilities *)

(** Between half the sensor range and the sensor range the decay
    [2 - 2 * range / sensor_range] is in (0, 1]; the sensor range is then
    positive, so the division is by a positive number. *)
Lemma decay_bounds (sr r : Q) :
  (~ r < sr / 2 -> r < sr ->
   0 < sr /\ 0 < 2 - 2 * r / sr /\ 2 - 2 * r / sr <= 1)%Q.
Proof.
  intros Hh Hr.
  assert (Hsr : (0 < sr)%Q).
  { apply Qnot_lt_le in Hh. apply Qnot_le_lt. intros Hle.
    assert (sr / 2 == sr * (1 # 2))%Q by (unfold Qdiv; reflexivity).
    Lqa.lra. }
  split; [exact Hsr|].
  assert (H1 : (r / sr < 1)%Q).
  { apply Qlt_shift_div_r; [exact Hsr|]. Lqa.lra. }
  assert (H2 : ((1 # 2) <= r / sr)%Q).
  { apply Qle_shift_div_l; [exact Hsr|].
    apply Qnot_lt_le in Hh.
    assert (sr / 2 == sr * (1 # 2))%Q by (unfold Qdiv; reflexivity).
    Lqa.lra. }
  assert (E : (2 * r / sr == 2 * (r / sr))%Q) by (unfold Qdiv; ring).
  rewrite E. split; Lqa.lra.
Qed.

Lemma region_confidence_bounds (sr : Q) (sector : Q -> bool) (a r : Q) :
  (0 < region_confidence sr sector a r /\ region_confidence sr sector a r <= 1)%Q.
Proof.
  unfold region_confidence.
  destruct (sector _); cbn [andb]; [|split; reflexivity || discriminate].
  destruct (Qltb r (sr / 2)) eqn:E1; [split; reflexivity || discriminate|].
  destruct (Qltb r sr) eqn:E2; [|split; reflexivity || discriminate].
  qbool. destruct (decay_bounds H E2) as [_ [Hlo Hhi]]. now split.
Qed.

(** The rising weight of region 0 in the band between half the sensor range
    and the sensor range is in (0, 1). *)
Lemma rise_bounds (sr r : Q) :
  (sr / 2 < r -> r < sr -> 0 < 2 * r / sr - 1 /\ 2 * r / sr - 1 <= 1)%Q.
Proof.
  intros Hh Hr.
  assert (Es : (sr / 2 == sr * (1 # 2))%Q) by (unfold Qdiv; reflexivity).
  assert (Hsr : (0 < sr)%Q) by Lqa.lra.
  assert (H1 : (r / sr < 1)%Q).
  { apply Qlt_shift_div_r; [exact Hsr|]. Lqa.lra. }
  assert (H2 : ((1 # 2) < r / sr)%Q).
  { apply Qlt_shift_div_l; [exact Hsr|]. Lqa.lra. }
  assert (E : (2 * r / sr == 2 * (r / sr))%Q) by (unfold Qdiv; ring).
  rewrite E. split; Lqa.lra.
Qed.

(** Whatever the sensor range and the state, each of the four region weights
    of the quadrant bearing sensor is positive and at most 1. *)
Theorem bearing_weights_in_unit_interval (sr : Q) (s : vec4 Q) :
  (0 < Bearing.obs0 sr s <= 1)%Q /\ (0 < Bearing.obs1 sr s <= 1)%Q
  /\ (0 < Bearing.obs2 sr s <= 1)%Q /\ (0 < Bearing.obs3 sr s <= 1)%Q.
Proof.
  split; [|repeat split;
           first [ apply (region_confidence_bounds sr sector1 (bearing_deg s) (range s))
                 | apply (region_confidence_bounds sr sector2 (course_deg s) (bearing_deg s))
                 | apply (region_confidence_bounds sr sector3 (bearing_deg s) (range s)) ]].
  unfold Bearing.obs0.
  destruct (_ || _ || _); [split; reflexivity || discriminate|].
  destruct (_ && _ && _); [split; reflexivity || discriminate|].
  destruct (Qltb (sr / 2) (range s)) eqn:E1;
    destruct (Qltb (range s) sr) eqn:E2; cbn [andb];
    rewrite ?andb_false_r; try (split; reflexivity || discriminate).
  qbool.
  destruct (_ && _); [now apply rise_bounds|].
  destruct (_ || _); [now apply rise_bounds|].
  destruct (_ || _); [now apply rise_bounds|].
  split; reflexivity || discriminate.
Qed.

(** In the band between half the sensor range and the sensor range, region 0
    takes exactly what the region of the bearing gives up: with the bearing in
    the rear sector the weights of regions 0 and 3 add up to 1, and with the
    bearing in the sector of region 1 the weights of regions 0 and 1 do. *)
Theorem obs0_complements_in_band (sr : Q) (s : vec4 Q) :
  (sr / 2 < range s)%Q -> (range s < sr)%Q ->
  ((120 <= bearing_deg s <= 240)%Q ->
     (Bearing.obs0 sr s + Bearing.obs3 sr s == 1)%Q)
  /\ ((60 < bearing_deg s < 90)%Q \/ (270 < bearing_deg s < 300)%Q ->
     (Bearing.obs0 sr s + Bearing.obs1 sr s == 1)%Q).
Proof.
  intros Hh Hr.
  destruct (region_confidence_bounds sr sector1 (bearing_deg s) (range s)) as [P1 _].
  destruct (region_confidence_bounds sr sector2 (course_deg s) (bearing_deg s))
    as [P2 _].
  destruct (region_confidence_bounds sr sector3 (bearing_deg s) (range s)) as [P3 _].
  change (region_confidence sr sector1 (bearing_deg s) (range s))
    with (Bearing.obs1 sr s) in P1.
  change (region_confidence sr sector2 (course_deg s) (bearing_deg s))
    with (Bearing.obs2 sr s) in P2.
  change (region_confidence sr sector3 (bearing_deg s) (range s))
    with (Bearing.obs3 sr s) in P3.
  assert (G1 : Qgtb (Bearing.obs1 sr s) 0 = true) by now apply Qgtb_spec.
  assert (G2 : Qgtb (Bearing.obs2 sr s) 0 = true) by now apply Qgtb_spec.
  assert (G3 : Qgtb (Bearing.obs3 sr s) 0 = true) by now apply Qgtb_spec.
  assert (B1 : Qltb (sr / 2) (range s) = true) by now apply Qltb_spec.
  assert (B2 : Qltb (range s) sr = true) by now apply Qltb_spec.
  assert (B3 : Qltb (range s) (sr / 2) = false).
  { destruct (Qltb (range s) (sr / 2)) eqn:E; [|reflexivity]. qbool. Lqa.lra. }
  assert (B4 : Qgeb (range s) sr = false).
  { destruct (Qgeb (range s) sr) eqn:E; [|reflexivity]. qbool. Lqa.lra. }
  split; intros Hb.
  - assert (W : Qltb (bearing_deg s) 0 = false).
    { destruct (Qltb (bearing_deg s) 0) eqn:E; [|reflexivity]. qbool. Lqa.lra. }
    assert (S1 : Qleb 120 (bearing_deg s) = true) by now apply Qleb_spec.
    assert (S2 : Qleb (bearing_deg s) 240 = true) by now apply Qleb_spec.
    assert (S3 : Qleb (bearing_deg s) 60 = false).
    { destruct (Qleb (bearing_deg s) 60) eqn:E; [|reflexivity]. qbool. Lqa.lra. }
    assert (S4 : Qgeb (bearing_deg s) 300 = false).
    { destruct (Qgeb (bearing_deg s) 300) eqn:E; [|reflexivity]. qbool. Lqa.lra. }
    unfold Bearing.obs0. rewrite G1, G2, G3. cbv zeta.
    rewrite W, S1, S2, S3, S4, B1, B2, B4. cbn [andb orb negb].
    unfold Bearing.obs3. cbv zeta. rewrite W, S1, S2, B2, B3. cbn [andb orb].
    unfold Qdiv. ring.
  - assert (W : Qltb (bearing_deg s) 0 = false).
    { destruct (Qltb (bearing_deg s) 0) eqn:E; [|reflexivity]. qbool.
      destruct Hb; Lqa.lra. }
    assert (S3 : Qleb (bearing_deg s) 60 = false).
    { destruct (Qleb (bearing_deg s) 60) eqn:E; [|reflexivity]. qbool.
      destruct Hb; Lqa.lra. }
    assert (S4 : Qgeb (bearing_deg s) 300 = false).
    { destruct (Qgeb (bearing_deg s) 300) eqn:E; [|reflexivity]. qbool.
      destruct Hb; Lqa.lra. }
    assert (S5 : (Qleb 120 (bearing_deg s) && Qleb (bearing_deg s) 240)%bool = false).
    { destruct (Qleb 120 (bearing_deg s)) eqn:E1;
        destruct (Qleb (bearing_deg s) 240) eqn:E2; try reflexivity.
      qbool. destruct Hb; Lqa.lra. }
    assert (S6 : ((Qleb 90 (bearing_deg s) && Qltb (bearing_deg s) 120)
                  || (Qltb 240 (bearing_deg s) && Qleb (bearing_deg s) 270))%bool
                 = false).
    { destruct (Qleb 90 (bearing_deg s)) eqn:E1;
        destruct (Qltb (bearing_deg s) 120) eqn:E2;
        destruct (Qltb 240 (bearing_deg s)) eqn:E3;
        destruct (Qleb (bearing_deg s) 270) eqn:E4; try reflexivity;
        qbool; destruct Hb; Lqa.lra. }
    assert (S7 : ((Qltb 60 (bearing_deg s) && Qltb (bearing_deg s) 90)
                  || (Qltb 270 (bearing_deg s) && Qltb (bearing_deg s) 300))%bool
                 = true).
    { destruct Hb as [[H1 H2]|[H1 H2]];
        apply Qltb_spec in H1; apply Qltb_spec in H2; rewrite H1, H2;
        [reflexivity | apply orb_true_r]. }
    assert (S8 : ((Qleb 60 (bearing_deg s) && Qltb (bearing_deg s) 90)
                  || (Qltb 270 (bearing_deg s) && Qleb (bearing_deg s) 300))%bool
                 = true).
    { destruct Hb as [[H1 H2]|[H1 H2]].
      - assert (H1' : Qleb 60 (bearing_deg s) = true) by (apply Qleb_spec; Lqa.lra).
        apply Qltb_spec in H2. rewrite H1', H2. reflexivity.
      - assert (H2' : Qleb (bearing_deg s) 300 = true) by (apply Qleb_spec; Lqa.lra).
        apply Qltb_spec in H1. rewrite H1, H2'. apply orb_true_r. }
    unfold Bearing.obs0. rewrite G1, G2, G3. cbv zeta.
    rewrite W, S3, S4, S5, S6, S8, B1, B2, B4. cbn [andb orb negb].
    unfold Bearing.obs1. cbv zeta. rewrite W, S7, B2, B3. cbn [andb orb].
    unfold Qdiv. ring.
Qed.

Lemma obs0_complements_in_band_witness :
  (Bearing.obs0 150 (Vec4 100 180 0 1) + Bearing.obs3 150 (Vec4 100 180 0 1) == 1)%Q
  /\ (Bearing.obs0 150 (Vec4 100 75 0 1) + Bearing.obs1 150 (Vec4 100 75 0 1) == 1)%Q.
Proof.
  split.
  - apply (@obs0_complements_in_band 150 (Vec4 100 180 0 1)%Q);
      simpl; try reflexivity. split; discriminate.
  - apply (@obs0_complements_in_band 150 (Vec4 100 75 0 1)%Q);
      simpl; try reflexivity. left. split; reflexivity.
Defined.

(** ** Forward sampling *)

Lemma random_Q_unit_interval (g : rng) :
  exists u, random_Q g = Ok (u, snd (next g)) /\ (0 <= u)%Q /\ (u < 1)%Q.
Proof.
  unfold random_Q, next. eexists. split; [reflexivity|].
  pose proof (Z.mod_pos_bound (tape g (cursor g)) (2 ^ 53) ltac:(lia)) as [H0 H1].
  unfold Qle, Qlt. cbn [Qnum Qden]. split; [lia|].
  change (Z.pos (2 ^ 53)) with (2 ^ 53)%Z. lia.
Qed.

(** The bisection stays between its bounds, so the index it gives is always
    one of the population. *)
Lemma bisect_loop_bounds (fuel : nat) (a : list Q) (x : Q) (lo hi : nat) :
  (lo <= hi)%nat ->
  (lo <= bisect_loop fuel a x lo hi <= hi)%nat.
Proof.
  revert lo hi. induction fuel as [|fuel IH]; intros lo hi Hle; cbn [bisect_loop].
  - lia.
  - destruct (lo <? hi)%nat eqn:E; [|lia].
    apply Nat.ltb_lt in E.
    assert (Hm : (lo <= (lo + hi) / 2 < hi)%nat).
    { split.
      - apply Nat.div_le_lower_bound; lia.
      - apply Nat.Div0.div_lt_upper_bound; lia. }
    destruct (negb _).
    + specialize (IH lo ((lo + hi) / 2)%nat ltac:(lia)). lia.
    + specialize (IH (S ((lo + hi) / 2)) hi ltac:(lia)). lia.
Qed.

(** More rounds than [hi - lo] change nothing: the loop has stopped. *)
Lemma bisect_loop_fuel (f1 f2 : nat) (a : list Q) (x : Q) (lo hi : nat) :
  (hi - lo <= f1)%nat -> (hi - lo <= f2)%nat ->
  bisect_loop f1 a x lo hi = bisect_loop f2 a x lo hi.
Proof.
  revert f2 lo hi. induction f1 as [|f1 IH]; intros f2 lo hi H1 H2.
  - destruct f2 as [|f2]; cbn [bisect_loop]; [reflexivity|].
    replace (lo <? hi)%nat with false; [reflexivity|].
    symmetry. apply Nat.ltb_ge. lia.
  - destruct f2 as [|f2]; cbn [bisect_loop].
    + replace (lo <? hi)%nat with false; [reflexivity|].
      symmetry. apply Nat.ltb_ge. lia.
    + destruct (lo <? hi)%nat eqn:E; [|reflexivity].
      apply Nat.ltb_lt in E.
      assert (Hm : (lo <= (lo + hi) / 2 < hi)%nat).
      { split.
        - apply Nat.div_le_lower_bound; lia.
        - apply Nat.Div0.div_lt_upper_bound; lia. }
      destruct (negb _); apply IH; lia.
Qed.

(** Forward sampling of the binary-detection sensor never fails, and it
    returns 1 exactly when the number drawn by [random()] is at least
    [1 - p1(state)], that is, on a share [p1(state)] of the unit interval. *)
Theorem drone_observation_threshold (x : vec4 Q) (g : rng) :
  exists u g',
    random_Q g = Ok (u, g') /\ (0 <= u)%Q /\ (u < 1)%Q
    /\ Drone.observation x g
       = Ok ((if Qle_bool (1 - Drone.obs1_prob x) u then 1 else 0)%Z, g').
Proof.
  destruct (random_Q_unit_interval g) as [u [Eu [H0 H1]]].
  exists u, (snd (next g)). repeat split; try assumption.
  unfold Drone.observation, choices. cbn [accumulate accumulate_from length].
  cbn [Nat.eqb negb last].
  assert (Et : (1 - Drone.obs1_prob x + Drone.obs1_prob x == 1)%Q) by ring.
  assert (El : Qle_bool (1 - Drone.obs1_prob x + Drone.obs1_prob x) 0 = false).
  { rewrite Et. reflexivity. }
  rewrite El. unfold bind. rewrite Eu. unfold ret, bisect_right.
  cbn [length Nat.sub bisect_loop Nat.ltb Nat.leb Nat.add Nat.div Nat.divmod fst nth].
  assert (Ex : (u * (1 - Drone.obs1_prob x + Drone.obs1_prob x) == u)%Q)
    by (rewrite Et; ring).
  rewrite Ex.
  destruct (Qle_bool (1 - Drone.obs1_prob x) u); reflexivity.
Qed.

(** Forward sampling of the quadrant bearing sensor never fails, whatever the
    sensor range and the state, and it returns the symbol whose stretch of
    the cumulative weights holds [random() * total]: symbol 0 below the weight
    of region 0, symbol 1 on the next stretch, and so on. *)
Theorem bearing_observation_by_cumulative_weight (sr : Q) (x : vec4 Q) (g : rng) :
  let c0 := Bearing.obs0 sr x in
  let c1 := (c0 + Bearing.obs1 sr x)%Q in
  let c2 := (c1 + Bearing.obs2 sr x)%Q in
  let total := (c2 + Bearing.obs3 sr x)%Q in
  exists u g' o,
    random_Q g = Ok (u, g') /\ (0 <= u)%Q /\ (u < 1)%Q
    /\ Bearing.observation sr x g = Ok (o, g')
    /\ In o Bearing.obsers
    /\ ((o = 0%Z /\ (u * total < c0)%Q)
        \/ (o = 1%Z /\ (c0 <= u * total)%Q /\ (u * total < c1)%Q)
        \/ (o = 2%Z /\ (c1 <= u * total)%Q /\ (u * total < c2)%Q)
        \/ (o = 3%Z /\ (c2 <= u * total)%Q)).
Proof.
  cbv zeta.
  destruct (region_confidence_bounds sr sector1 (bearing_deg x) (range x)) as [P1 _].
  destruct (region_confidence_bounds sr sector2 (course_deg x) (bearing_deg x))
    as [P2 _].
  destruct (region_confidence_bounds sr sector3 (bearing_deg x) (range x)) as [P3 _].
  change (region_confidence sr sector1 (bearing_deg x) (range x))
    with (Bearing.obs1 sr x) in P1.
  change (region_confidence sr sector2 (course_deg x) (bearing_deg x))
    with (Bearing.obs2 sr x) in P2.
  change (region_confidence sr sector3 (bearing_deg x) (range x))
    with (Bearing.obs3 sr x) in P3.
  assert (P0 : (0 < Bearing.obs0 sr x)%Q).
  { unfold Bearing.obs0.
    destruct (_ || _ || _); [reflexivity|].
    destruct (_ && _ && _); [reflexivity|].
    destruct (Qltb (sr / 2) (range x)) eqn:E1;
      destruct (Qltb (range x) sr) eqn:E2; cbn [andb];
      rewrite ?andb_false_r; try reflexivity.
    qbool.
    destruct (_ && _); [now apply rise_bounds|].
    destruct (_ || _); [now apply rise_bounds|].
    destruct (_ || _); [now apply rise_bounds|reflexivity]. }
  destruct (random_Q_unit_interval g) as [u [Eu [H0 H1]]].
  set (c0 := Bearing.obs0 sr x) in *.
  set (c1 := (c0 + Bearing.obs1 sr x)%Q).
  set (c2 := (c1 + Bearing.obs2 sr x)%Q).
  set (total := (c2 + Bearing.obs3 sr x)%Q).
  assert (Htot : Qle_bool total 0 = false).
  { destruct (Qle_bool total 0) eqn:E; [|reflexivity].
    apply Qle_bool_iff in E. unfold total, c2, c1 in E. Lqa.lra. }
  assert (Erun : Bearing.observation sr x g
                 = Ok (nth (bisect_right [c0; c1; c2; total] (u * total)%Q 0 3)
                         [0; 1; 2; 3]%Z 0%Z, snd (next g))).
  { unfold Bearing.observation, choices.
    cbn [accumulate accumulate_from length Nat.eqb negb last].
    fold c0. fold c1. fold c2. fold total. rewrite Htot.
    unfold bind. rewrite Eu. reflexivity. }
  exists u, (snd (next g)).
  eexists. split; [exact Eu|]. split; [exact H0|]. split; [exact H1|].
  split; [exact Erun|].
  unfold bisect_right.
  cbn [Nat.sub bisect_loop Nat.ltb Nat.leb Nat.add Nat.div Nat.divmod fst nth].
  destruct (Qle_bool c1 (u * total)) eqn:E1; cbn [negb].
  - destruct (Qle_bool c2 (u * total)) eqn:E2; cbn [negb nth].
    + apply Qle_bool_iff in E2. split; [simpl; tauto|]. right; right; right.
      now split.
    + assert (~ (c2 <= u * total)%Q) by (rewrite <- Qle_bool_iff; congruence).
      apply Qle_bool_iff in E1.
      split; [simpl; tauto|]. right; right; left.
      repeat split; [exact E1|now apply Qnot_le_lt].
  - assert (~ (c1 <= u * total)%Q) by (rewrite <- Qle_bool_iff; congruence).
    destruct (Qle_bool c0 (u * total)) eqn:E0; cbn [negb nth].
    + apply Qle_bool_iff in E0. split; [simpl; tauto|]. right; left.
      repeat split; [exact E0|now apply Qnot_le_lt].
    + assert (~ (c0 <= u * total)%Q) by (rewrite <- Qle_bool_iff; congruence).
      split; [simpl; tauto|]. left. split; [reflexivity|now apply Qnot_le_lt].
Qed.

(** ** Inverse sampling *)

Lemma drone_inverse_sample_consistent_witness :
  (Bearing.floor_value < Drone.weight 1 (as_Q (Vec4 25 300 0 1)%Z))%Q.
Proof.
  apply (@drone_inverse_sample_consistent 1 (of_list [0; 0; 0]%Z)
           (snd (next (snd (next (snd (next (of_list [0; 0; 0]%Z)))))))
           (Vec4 25 300 0 1)%Z).
  reflexivity.
Defined.

Lemma bearing_inverse_sample_consistent_0_3_witness :
  exists q, Bearing.weight Bearing.default_sensor_range 3 (as_Q (Vec4 25 120 0 1)%Z)
            = PNum q /\ (Bearing.floor_value < q)%Q.
Proof.
  apply (@bearing_inverse_sample_consistent_0_3 3 (of_list [0; 0; 0]%Z)
           (snd (next (snd (next (snd (next (of_list [0; 0; 0]%Z)))))))
           (Vec4 25 120 0 1)%Z).
  - now right.
  - reflexivity.
Defined.

(** The inverse sampler of the binary-detection sensor returns exactly for
    the symbols of the alphabet, and then with a state whose bearing is
    wrapped into [0, 359], whose range is in [25, 100], whose course is a
    multiple of 30 in [0, 330] and whose speed is 1. *)
Theorem drone_gen_state_returns (o : Z) (g : rng) :
  (In o Drone.obsers <-> exists s g', Drone.gen_state o g = Ok (s, g'))
  /\ (forall s g', Drone.gen_state o g = Ok (s, g') ->
        (0 <= bearing_deg s <= 359)%Z /\ (25 <= range s <= 100)%Z
        /\ (exists k, 0 <= k <= 11 /\ course_deg s = k * 30)%Z
        /\ speed s = 1%Z).
Proof.
  split.
  - split.
    + intros Ho. unfold Drone.gen_state, bind, randint, next, ret.
      destruct Ho as [<-|[<-|[]]]; cbn [Z.eqb]; eexists; eexists; reflexivity.
    + intros [s [g' E]].
      destruct (in_dec Z.eq_dec o Drone.obsers) as [Hin|Hout]; [exact Hin|].
      rewrite (gen_state_drone_unbound g Hout) in E. discriminate E.
  - intros s g' E. apply drone_gen_state_inv in E.
    destruct E as [Hb [Hr [Hc Hs]]]. repeat split; try assumption; lia.
Qed.

Lemma drone_gen_state_returns_witness :
  (0 <= bearing_deg (Vec4 25 300 0 1) <= 359)%Z /\ (25 <= range (Vec4 25 300 0 1) <= 100)%Z
  /\ (exists k, 0 <= k <= 11 /\ course_deg (Vec4 25 300 0 1) = k * 30)%Z
  /\ speed (Vec4 25 300 0 1)%Z = 1%Z.
Proof.
  apply (proj2 (drone_gen_state_returns 1 (of_list [0; 0; 0]%Z))
           (Vec4 25 300 0 1)%Z
           (snd (next (snd (next (snd (next (of_list [0; 0; 0]%Z)))))))).
  reflexivity.
Defined.

(** The same for the quadrant bearing sensor and its four symbols. *)
Theorem bearing_gen_state_returns (o : Z) (g : rng) :
  (In o Bearing.obsers <-> exists s g', Bearing.gen_state o g = Ok (s, g'))
  /\ (forall s g', Bearing.gen_state o g = Ok (s, g') ->
        (0 <= bearing_deg s <= 359)%Z /\ (25 <= range s <= 100)%Z
        /\ (exists k, 0 <= k <= 11 /\ course_deg s = k * 30)%Z
        /\ speed s = 1%Z).
Proof.
  split.
  - split.
    + intros Ho. unfold Bearing.gen_state, bind, randint, choice, next, ret.
      destruct Ho as [<-|[<-|[<-|[<-|[]]]]]; cbn [Z.eqb];
        eexists; eexists; reflexivity.
    + intros [s [g' E]].
      destruct (in_dec Z.eq_dec o Bearing.obsers) as [Hin|Hout]; [exact Hin|].
      rewrite (gen_state_bearing_unbound g Hout) in E. discriminate E.
  - intros s g' E. apply bearing_gen_state_inv in E.
    destruct E as [Hb [Hr [Hc Hs]]]. repeat split; try assumption; lia.
Qed.

Lemma bearing_gen_state_returns_witness :
  (0 <= bearing_deg (Vec4 25 120 0 1) <= 359)%Z /\ (25 <= range (Vec4 25 120 0 1) <= 100)%Z
  /\ (exists k, 0 <= k <= 11 /\ course_deg (Vec4 25 120 0 1) = k * 30)%Z
  /\ speed (Vec4 25 120 0 1)%Z = 1%Z.
Proof.
  apply (proj2 (bearing_gen_state_returns 3 (of_list [0; 0; 0]%Z))
           (Vec4 25 120 0 1)%Z
           (snd (next (snd (next (snd (next (of_list [0; 0; 0]%Z)))))))).
  reflexivity.
Defined.

(** A state sampled for symbol 1 of the binary-detection sensor has
    likelihood 0.9 only when its bearing was drawn non-negative; a negative
    draw is wrapped into [300, 359], where the cone test on the unwrapped
    bearing fails and the likelihood of symbol 1 is 0.5. *)
Theorem drone_sample_1_likelihood (g g' : rng) (s : vec4 Z) :
  Drone.gen_state 1 g = Ok (s, g') ->
  ((0 <= bearing_deg s <= 60)%Z /\ Drone.weight 1 (as_Q s) = 0.9%Q)
  \/ ((300 <= bearing_deg s <= 359)%Z /\ Drone.weight 1 (as_Q s) = 0.5%Q).
Proof.
  intros E. apply drone_gen_state_inv in E. destruct E as [Hb _].
  destruct Hb as [[_ Hb]|[Ho _]]; [|discriminate Ho].
  unfold Drone.weight, Drone.obs1_prob, as_Q, vec4_map. cbn [Z.eqb bearing_deg].
  destruct Hb as [Hb|Hb]; [left|right]; (split; [exact Hb|]).
  - assert (H1 := const_le_inject_Z (a := -60) (b := bearing_deg s) ltac:(lia)).
    assert (H2 := inject_Z_le_const (a := bearing_deg s) (b := 60) ltac:(lia)).
    apply Qleb_spec in H1, H2. rewrite H1, H2. reflexivity.
  - assert (H1 := const_le_inject_Z (a := 300) (b := bearing_deg s) ltac:(lia)).
    assert (H2 := inject_Z_le_const (a := bearing_deg s) (b := 359) ltac:(lia)).
    destruct (Qleb (inject_Z (bearing_deg s)) 60) eqn:E1; [qbool; exfalso; Lqa.lra|].
    rewrite andb_false_r.
    destruct (Qleb (inject_Z (bearing_deg s)) 240) eqn:E2; [qbool; exfalso; Lqa.lra|].
    rewrite andb_false_r. reflexivity.
Qed.

Lemma drone_sample_1_likelihood_witness :
  ((0 <= bearing_deg (Vec4 25 300 0 1) <= 60)%Z
   /\ Drone.weight 1 (as_Q (Vec4 25 300 0 1)%Z) = 0.9%Q)
  \/ ((300 <= bearing_deg (Vec4 25 300 0 1) <= 359)%Z
      /\ Drone.weight 1 (as_Q (Vec4 25 300 0 1)%Z) = 0.5%Q).
Proof.
  apply (@drone_sample_1_likelihood (of_list [0; 0; 0]%Z)
           (snd (next (snd (next (snd (next (of_list [0; 0; 0]%Z)))))))
           (Vec4 25 300 0 1)%Z).
  reflexivity.
Defined.

(** At the default sensor range and for a range that is not strictly between
    149 and 150 (an integer, say), a region weight is above the floor exactly
    when the angle is in the sector and the range below the sensor range. *)
Lemma region_confidence_above_floor (sector : Q -> bool) (a r : Q) :
  (r <= 149 \/ 150 <= r)%Q ->
  (Bearing.floor_value < region_confidence 150 sector a r)%Q
  <-> sector (if Qltb a 0 then (a + 360)%Q else a) = true /\ (r < 150)%Q.
Proof.
  intros Hr. unfold region_confidence, Bearing.floor_value.
  destruct (sector _); cbn [andb].
  - destruct (Qltb r (150 / 2)) eqn:E1.
    + qbool. assert (150 / 2 == 75)%Q by reflexivity.
      split; [intros _; split; [reflexivity|Lqa.lra] | reflexivity].
    + destruct (Qltb r 150) eqn:E2; qbool.
      * split; [intros _; now split|intros _].
        unfold Qdiv. change (/ 150)%Q with (1 # 150)%Q.
        destruct Hr; Lqa.lra.
      * split; [intros H1; discriminate H1|intros [_ H1]; contradiction].
  - split; [intros H; discriminate H|intros [H _]; discriminate H].
Qed.

(** Where the inverse sampler of the quadrant bearing sensor and its
    likelihood part ways (at the default sensor range): a state sampled for
    symbol 1 is above the floor unless its bearing is one of the end points
    60, 90, 270, 300; a state sampled for symbol 2 is above the floor only
    when its course happens to be 90 or 270 and its bearing is in
    [90, 120]. *)
Theorem bearing_sample_1_2_above_floor (o : Z) (g g' : rng) (s : vec4 Z) :
  Bearing.gen_state o g = Ok (s, g') ->
  (o = 1%Z ->
     ((Bearing.floor_value < Bearing.obs1 Bearing.default_sensor_range (as_Q s))%Q
      <-> ~ In (bearing_deg s) [60; 90; 270; 300]%Z))
  /\ (o = 2%Z ->
     ((Bearing.floor_value < Bearing.obs2 Bearing.default_sensor_range (as_Q s))%Q
      <-> (course_deg s = 90 \/ course_deg s = 270)%Z
          /\ (90 <= bearing_deg s <= 120)%Z)).
Proof.
  intros E. apply bearing_gen_state_inv in E.
  destruct E as [Hb [Hr [[k [Hk Hc]] _]]].
  destruct s as [r b c v]. cbn [range bearing_deg course_deg] in *.
  unfold Bearing.default_sensor_range.
  assert (Z2Q_lt : forall x y : Z, (inject_Z x < inject_Z y)%Q <-> (x < y)%Z)
    by (intros; rewrite <- Zlt_Qlt; reflexivity).
  assert (Z2Q_le : forall x y : Z, (inject_Z x <= inject_Z y)%Q <-> (x <= y)%Z)
    by (intros; rewrite <- Zle_Qle; reflexivity).
  split; intros ->.
  - assert (Hb' : (60 <= b <= 90 \/ 270 <= b <= 300)%Z) by lia. clear Hb.
    change (Bearing.obs1 150 (as_Q (Vec4 r b c v)))
      with (region_confidence 150 sector1 (inject_Z b) (inject_Z r)).
    rewrite region_confidence_above_floor
      by (left; apply (Z2Q_le r 149%Z); lia).
    assert (W : Qltb (inject_Z b) 0 = false).
    { destruct (Qltb (inject_Z b) 0) eqn:E; [|reflexivity].
      apply Qltb_spec in E. apply (Z2Q_lt b 0%Z) in E. lia. }
    rewrite W. unfold sector1.
    rewrite orb_true_iff, !andb_true_iff, !Qltb_spec.
    rewrite (Z2Q_lt 60%Z b), (Z2Q_lt b 90%Z), (Z2Q_lt 270%Z b), (Z2Q_lt b 300%Z),
      (Z2Q_lt r 150%Z).
    cbn [In]. lia.
  - assert (Hb' : (90 <= b <= 120 \/ 240 <= b <= 270)%Z) by lia. clear Hb.
    change (Bearing.obs2 150 (as_Q (Vec4 r b c v)))
      with (region_confidence 150 sector2 (inject_Z c) (inject_Z b)).
    rewrite region_confidence_above_floor.
    2:{ destruct Hb' as [Hb'|Hb'];
          [left; apply (Z2Q_le b 149%Z) | right; apply (Z2Q_le 150%Z b)]; lia. }
    assert (W : Qltb (inject_Z c) 0 = false).
    { destruct (Qltb (inject_Z c) 0) eqn:E; [|reflexivity].
      apply Qltb_spec in E. apply (Z2Q_lt c 0%Z) in E. lia. }
    rewrite W. unfold sector2.
    rewrite orb_true_iff, !andb_true_iff, !Qltb_spec, !Qleb_spec.
    rewrite (Z2Q_le 90%Z c), (Z2Q_lt c 120%Z), (Z2Q_lt 240%Z c), (Z2Q_le c 270%Z),
      (Z2Q_lt b 150%Z).
    lia.
Qed.

Lemma bearing_sample_1_2_above_floor_witness :
  ~ (Bearing.floor_value
     < Bearing.obs2 Bearing.default_sensor_range (as_Q (Vec4 50 100 0 1)%Z))%Q.
Proof.
  intros H.
  apply (proj2 (@bearing_sample_1_2_above_floor 2 (of_list [10; 0; 0; 25; 0]%Z)
                  (snd (next (snd (next (snd (next (snd (next (snd (next
                     (of_list [10; 0; 0; 25; 0]%Z)))))))))))
                  (Vec4 50 100 0 1)%Z eq_refl) eq_refl) in H.
  destruct H as [[H|H] _]; discriminate H.
Defined.

(** * Further properties of the model *)

(** ** The reward *)

(** Without an action the reward is positive exactly in the band
    10 < range < 150, where it is 0.1; at or beyond 150 it is -2 and at or
    below 10 it is -200.  With an action and a penalty of 0 or less the reward
    never exceeds 0.1 and never falls below [-2 + penalty]. *)
Theorem reward_func_bands (s : vec4 Q) (idx : Z) (p : Q) :
  ((0 < RFState.reward_func s None p)%Q <-> (10 < range s)%Q /\ (range s < 150)%Q)
  /\ ((10 < range s)%Q /\ (range s < 150)%Q -> RFState.reward_func s None p = 0.1%Q)
  /\ ((150 <= range s)%Q -> RFState.reward_func s None p = (-2)%Q)
  /\ ((range s <= 10)%Q -> RFState.reward_func s None p = (-200)%Q)
  /\ ((p <= 0)%Q ->
      (-2 + p <= RFState.reward_func s (Some idx) p)%Q
      /\ (RFState.reward_func s (Some idx) p <= 0.1)%Q).
Proof.
  unfold RFState.reward_func.
  destruct (Qgeb (range s) 150) eqn:E1; [|destruct (Qleb (range s) 10) eqn:E2];
    qbool; repeat split; intros; try reflexivity;
    try (exfalso; Lqa.lra); try Lqa.lra;
    try match goal with H : (0 < _)%Q |- _ => discriminate H end;
    try (destruct ((2 <? idx)%Z && (idx <? 5)%Z)%bool; Lqa.lra);
    try (destruct H0; exfalso; Lqa.lra).
Qed.

Lemma reward_func_bands_witness :
  RFState.reward_func (Vec4 5 0 0 1) None RFState.default_action_penalty = (-200)%Q
  /\ (RFState.reward_func (Vec4 5 0 0 1) (Some 5%Z) RFState.default_action_penalty
      <= 0.1)%Q.
Proof.
  split.
  - apply (reward_func_bands (Vec4 5 0 0 1)%Q 5 RFState.default_action_penalty).
    simpl. discriminate.
  - apply (reward_func_bands (Vec4 5 0 0 1)%Q 5 RFState.default_action_penalty).
    discriminate.
Defined.

(** The two modes of the reward agree wherever there is no collision risk:
    for the unpenalised actions 3 and 4 and a range above 10, the reward with
    the action is the reward without; at a range of 10 or less the reward
    with an action is -2 while the reward without is -200. *)
Theorem reward_func_modes (s : vec4 Q) (idx : Z) (p : Q) :
  (idx = 3 \/ idx = 4)%Z ->
  ((10 < range s)%Q ->
     (RFState.reward_func s (Some idx) p == RFState.reward_func s None p)%Q)
  /\ ((range s <= 10)%Q ->
     (RFState.reward_func s (Some idx) p == -2)%Q
     /\ RFState.reward_func s None p = (-200)%Q).
Proof.
  intros Hi. unfold RFState.reward_func.
  assert (E : ((2 <? idx)%Z && (idx <? 5)%Z)%bool = true)
    by (destruct Hi as [-> | ->]; reflexivity).
  rewrite E.
  destruct (Qgeb (range s) 150) eqn:E1; [|destruct (Qleb (range s) 10) eqn:E2];
    qbool; split; intros; try split; try reflexivity;
    try (exfalso; Lqa.lra).
Qed.

Lemma reward_func_modes_witness :
  (RFState.reward_func (Vec4 50 0 0 1) (Some 4%Z) RFState.default_action_penalty
   == RFState.reward_func (Vec4 50 0 0 1) None RFState.default_action_penalty)%Q.
Proof.
  apply (@reward_func_modes (Vec4 50 0 0 1)%Q 4 RFState.default_action_penalty).
  - now right.
  - reflexivity.
Defined.

(** ** The registry *)

Lemma lower_ascii_idempotent (c : Ascii.ascii) :
  lower_ascii (lower_ascii c) = lower_ascii c.
Proof.
  destruct c as [[] [] [] [] [] [] [] []]; reflexivity.
Qed.

Lemma lower_idempotent (s : string) : lower (lower s) = lower s.
Proof.
  induction s as [|c s IH]; [reflexivity|].
  cbn [lower]. now rewrite lower_ascii_idempotent, IH.
Qed.

(** The lookup does not see the case of ASCII letters: a name and its
    lower-cased form give the same result, be it the class or the error with
    its message; and the class is returned exactly for the names that
    lower-case to ['rfstate']. *)
Theorem get_state_case_insensitive (name : string) :
  get_state (lower name) = get_state name
  /\ (get_state name = Ok RFState_class <-> lower name = "rfstate"%string).
Proof.
  unfold get_state. rewrite lower_idempotent. split; [reflexivity|].
  unfold AVAIL_STATES, dict_get.
  destruct (String.eqb_spec (lower name) "rfstate") as [E|E].
  - split; [intros _; exact E|reflexivity].
  - split; [intros H; discriminate H|intros H; contradiction].
Qed.

(** ** The circular-motion counter *)

(** Whatever the counter, five calls of [circular_control(5)] in a row turn
    the target by 30 in all (one call returns 30, four return 0) and leave
    the counter 5 higher. *)
Theorem circular_control_period (m : RFState.t) :
  exists l,
    repeatM 5 (RFState.circular_control 5) m
    = Ok (l, RFState.Model (RFState.prob m) (RFState.target_speed m)
               (RFState.target_movement m) (RFState.target_move_iter m + 5)%Z
               (RFState.target_state m) (RFState.sensor_state m))
    /\ map snd l = repeat (RFState.target_speed m) 5
    /\ fold_right Z.add 0%Z (map fst l) = 30%Z.
Proof.
  destruct m as [p ts mv it tst sst].
  unfold repeatM, bind, ret, RFState.circular_control.
  cbn [Z.eqb RFState.target_move_iter RFState.prob RFState.target_speed
       RFState.target_movement RFState.target_state RFState.sensor_state].
  eexists. split.
  - do 3 f_equal. lia.
  - split; [reflexivity|].
    cbn [map fst fold_right].
    pose proof (Z.mod_pos_bound it 5 ltac:(lia)) as Hm.
    assert (H1 : ((it + 1) mod 5 = (it mod 5 + 1) mod 5)%Z)
      by (rewrite Z.add_mod_idemp_l by lia; reflexivity).
    assert (H2 : ((it + 1 + 1) mod 5 = (it mod 5 + 2) mod 5)%Z)
      by (rewrite Z.add_mod_idemp_l by lia; f_equal; lia).
    assert (H3 : ((it + 1 + 1 + 1) mod 5 = (it mod 5 + 3) mod 5)%Z)
      by (rewrite Z.add_mod_idemp_l by lia; f_equal; lia).
    assert (H4 : ((it + 1 + 1 + 1 + 1) mod 5 = (it mod 5 + 4) mod 5)%Z)
      by (rewrite Z.add_mod_idemp_l by lia; f_equal; lia).
    rewrite H1, H2, H3, H4.
    assert (Hc : (it mod 5 = 0 \/ it mod 5 = 1 \/ it mod 5 = 2 \/ it mod 5 = 3
                  \/ it mod 5 = 4)%Z) by lia.
    destruct Hc as [-> | [-> | [-> | [-> | ->]]]]; reflexivity.
Qed.

(** ** Arithmetic modulo 360 *)

Section Modulo.

Import Np.
Local Open Scope R_scope.

Lemma Rmod_360_shift (x : R) (k : Z) : Rmod (x + 360 * IZR k) 360 = Rmod x 360.
Proof.
  unfold Rmod.
  replace ((x + 360 * IZR k) / 360) with (x / 360 + IZR k) by (field; lra).
  rewrite Zfloor_addz, plus_IZR. ring.
Qed.

Lemma Rmod_360_as_shift (x : R) : exists k : Z, Rmod x 360 = x + 360 * IZR k.
Proof.
  exists (- Zfloor (x / 360))%Z. unfold Rmod. rewrite opp_IZR. ring.
Qed.

Lemma wrap_as_shift (x : R) :
  exists k : Z, (if Rlt_dec x 0 then x + 360 else x) = x + 360 * IZR k.
Proof.
  destruct (Rlt_dec x 0); [exists 1%Z | exists 0%Z]; lra.
Qed.

(** [%] forgets an earlier [%] and an earlier wrap. *)
Lemma Rmod_360_inner (x t : R) : Rmod (Rmod x 360 + t) 360 = Rmod (x + t) 360.
Proof.
  destruct (Rmod_360_as_shift x) as [k ->].
  replace (x + 360 * IZR k + t) with (x + t + 360 * IZR k) by ring.
  apply Rmod_360_shift.
Qed.

Lemma Rmod_360_wrap (x : R) :
  Rmod (if Rlt_dec x 0 then x + 360 else x) 360 = Rmod x 360.
Proof.
  destruct (wrap_as_shift x) as [k ->]. apply Rmod_360_shift.
Qed.

End Modulo.

(** ** More on the target transition *)

Section Kinematics.

Import Np.
Local Open Scope R_scope.

(** The course a call of [update_state] returns is the course it was given,
    less the turn of the sensor, plus the change of the target's own course,
    up to whole turns; the change is 0, +30 or -30; on a circular course it is
    what [circular_control(5)] says for the current counter, and otherwise it
    is 0 when [prob] is 1 or more.  The speed returned is the control
    speed. *)
Theorem update_state_course (st : vec4 R) (ctl : R * R) (tu : bool)
    (w : RFState.world) :
  let m := RFState.self w in
  let circular := (tu && String.eqb (RFState.target_movement m) "circular")%bool in
  exists s' w' delta (k : Z),
    RFState.update_state st ctl tu w = Ok (s', w')
    /\ speed s' = snd ctl
    /\ course_deg s' = course_deg st - fst ctl + delta + 360 * IZR k
    /\ (delta = 0 \/ delta = 30 \/ delta = -30)
    /\ (circular = true ->
        delta = IZR (if (RFState.target_move_iter m mod 5 =? 0)%Z then 30 else 0))
    /\ (circular = false -> 1 <= RFState.prob m -> delta = 0).
Proof.
  cbv zeta.
  destruct (update_state_run st ctl tu w) as [crs1 [g' [E [Hc Hn]]]].
  cbv zeta in E, Hc, Hn.
  set (c0 := Rmod (if Rlt_dec (Rmod (course_deg st) 360 - fst ctl) 0
                   then Rmod (course_deg st) 360 - fst ctl + 360
                   else Rmod (course_deg st) 360 - fst ctl) 360) in *.
  assert (H0 : exists k0 : Z, c0 = course_deg st - fst ctl + 360 * IZR k0).
  { unfold c0.
    destruct (Rmod_360_as_shift (course_deg st)) as [k1 E1]. rewrite E1.
    destruct (wrap_as_shift (course_deg st + 360 * IZR k1 - fst ctl)) as [k2 E2].
    rewrite E2.
    destruct (Rmod_360_as_shift
                (course_deg st + 360 * IZR k1 - fst ctl + 360 * IZR k2))
      as [k3 E3].
    rewrite E3. exists (k1 + k2 + k3)%Z. rewrite !plus_IZR. ring. }
  destruct H0 as [k0 E0].
  destruct (Rmod_360_as_shift crs1) as [k4 E4].
  destruct (wrap_as_shift (Rmod crs1 360)) as [k5 E5].
  eexists. eexists. exists (crs1 - c0), (k0 + k4 + k5)%Z.
  split; [exact E|]. cbn [speed course_deg].
  split; [reflexivity|].
  split; [rewrite E5, E4, !plus_IZR; lra|].
  destruct (tu && String.eqb (RFState.target_movement (RFState.self w)) "circular")%bool.
  - destruct (Hc eq_refl) as [_ Hd]. rewrite Hd.
    repeat split.
    + destruct (RFState.target_move_iter (RFState.self w) mod 5 =? 0)%Z;
        [right; left|left]; lra.
    + intros _. ring.
    + intros Hf. discriminate Hf.
  - destruct (Hn eq_refl) as [Hd Hp].
    repeat split.
    + destruct Hd as [-> | [-> | ->]]; [left|right; right|right; left]; lra.
    + intros Hf. discriminate Hf.
    + intros _ H1. rewrite (Hp H1). ring.
Qed.

Lemma update_state_course_witness :
  exists s' w' delta (k : Z),
    RFState.update_state (Vec4 50 0 90 1) (30, 1) false
      (RFState.World (RFState.Model 1 1 "random" 0 (Vec4 50 0 90 1) (Vec4 0 0 0 0))
         (of_list [])) = Ok (s', w')
    /\ course_deg s' = 90 - 30 + delta + 360 * IZR k
    /\ delta = 0.
Proof.
  destruct (update_state_course (Vec4 50 0 90 1) (30, 1) false
              (RFState.World
                 (RFState.Model 1 1 "random" 0 (Vec4 50 0 90 1) (Vec4 0 0 0 0))
                 (of_list [])))
    as [s' [w' [delta [k [E [_ [Hc [_ [_ Hd]]]]]]]]].
  exists s', w', delta, k. split; [exact E|]. split; [exact Hc|].
  apply Hd; [reflexivity|]. cbn. lra.
Defined.

(** A sensor heading straight for a target at rest dead ahead (bearing 0, no
    turn) closes the range by its speed; once it has overshot, the target is
    dead astern, at bearing 180. *)
Theorem update_state_closing (st : vec4 R) (v : R) (tu : bool)
    (w : RFState.world) :
  RFState.target_speed (RFState.self w) = 0 -> bearing_deg st = 0 ->
  0 <= range st ->
  exists s' w',
    RFState.update_state st (0, v) tu w = Ok (s', w')
    /\ (v < range st -> range s' = range st - v /\ bearing_deg s' = 0)
    /\ (range st < v -> range s' = v - range st /\ bearing_deg s' = 180).
Proof.
  intros Hts Hb Hr. pose proof PI_RGT_0 as Hpi.
  destruct (update_state_run st (0, v) tu w) as [crs1 [g' [E _]]].
  cbv zeta in E. cbn [fst snd] in E. rewrite Hts, Hb in E.
  assert (E0 : Rmod 0 360 = 0) by (apply Rmod_360_small; lra).
  rewrite E0, Rminus_0_r, E0 in E.
  destruct (Rlt_dec 0 0) as [Habs|_]; [lra|].
  assert (Er : radians 0 = 0) by (unfold radians; field).
  rewrite Er, cos_0, sin_0 in E.
  set (cn := if Rlt_dec (Rmod crs1 360) 0 then Rmod crs1 360 + 360 else Rmod crs1 360)
    in E.
  replace (range st * 1 + 0 * cos (radians cn) - v) with (range st - v) in E by ring.
  replace (range st * 0 + 0 * sin (radians cn)) with 0 in E by ring.
  eexists. eexists. split; [exact E|]. cbn [range bearing_deg].
  replace ((range st - v) ^ 2 + 0 ^ 2) with (Rsqr (range st - v))
    by (unfold Rsqr; ring).
  rewrite sqrt_Rsqr_abs. unfold arctan2.
  split; intros Hv.
  - split; [apply Rabs_pos_eq; lra|].
    destruct (Rlt_dec 0 (range st - v)) as [_|Hn]; [|lra].
    replace (0 / (range st - v)) with 0 by (field; lra).
    rewrite atan_0. unfold degrees.
    replace (0 * 180 / PI) with 0 by (field; lra).
    destruct (Rlt_dec 0 0); lra.
  - split; [rewrite Rabs_left by lra; ring|].
    destruct (Rlt_dec 0 (range st - v)) as [Hp|_]; [lra|].
    destruct (Rlt_dec (range st - v) 0) as [_|Hn]; [|lra].
    destruct (Rle_dec 0 0) as [_|Hn]; [|lra].
    replace (0 / (range st - v)) with 0 by (field; lra).
    rewrite atan_0. unfold degrees.
    replace ((0 + PI) * 180 / PI) with 180 by (field; lra).
    destruct (Rlt_dec 180 0); lra.
Qed.

Lemma update_state_closing_witness :
  exists s' w',
    RFState.update_state (Vec4 50 0 90 1) (0, 2) false
      (RFState.World (RFState.Model 0.9 0 "random" 0 (Vec4 50 0 90 1) (Vec4 0 0 0 0))
         (of_list [])) = Ok (s', w')
    /\ range s' = 50 - 2 /\ bearing_deg s' = 0.
Proof.
  destruct (@update_state_closing (Vec4 50 0 90 1) 2 false
              (RFState.World
                 (RFState.Model 0.9 0 "random" 0 (Vec4 50 0 90 1) (Vec4 0 0 0 0))
                 (of_list []))
              eq_refl eq_refl ltac:(cbn; lra))
    as [s' [w' [E [Hc _]]]].
  exists s', w'. split; [exact E|]. apply Hc. cbn. lra.
Defined.

End Kinematics.

(** ** The sensor course *)

Section SensorCourse.

Import Np.
Local Open Scope R_scope.

Lemma update_sensor_step_aux (ctl : R * R) (m : RFState.t) :
  exists m',
    RFState.update_sensor ctl m = Ok (tt, m')
    /\ course_deg (RFState.sensor_state m')
       = Rmod (course_deg (RFState.sensor_state m) + fst ctl) 360
    /\ RFState.target_state m' = RFState.target_state m
    /\ RFState.target_move_iter m' = RFState.target_move_iter m.
Proof.
  unfold RFState.update_sensor, pol2cart. eexists. split; [reflexivity|].
  cbn [RFState.sensor_state RFState.target_state RFState.target_move_iter
       course_deg].
  split; [|split; reflexivity].
  rewrite Rmod_360_wrap. apply Rmod_360_inner.
Qed.

(** Over any run of controls the sensor course adds up the turns modulo 360,
    and the target state and the counter stay as they were. *)
Theorem sensor_loop_course (controls : list (R * R)) (m : RFState.t) :
  exists m',
    sensor_loop controls m = Ok (tt, m')
    /\ (controls <> [] ->
        course_deg (RFState.sensor_state m')
        = Rmod (course_deg (RFState.sensor_state m)
                + fold_right Rplus 0 (map fst controls)) 360)
    /\ RFState.target_state m' = RFState.target_state m
    /\ RFState.target_move_iter m' = RFState.target_move_iter m.
Proof.
  revert m. induction controls as [|c cs IH]; intros m.
  - exists m. split; [reflexivity|]. split; [intros H; contradiction|now split].
  - destruct (update_sensor_step_aux c m) as [m1 [E1 [Hc1 [Ht1 Hi1]]]].
    destruct (IH m1) as [m' [E' [Hc' [Ht' Hi']]]].
    exists m'. cbn [sensor_loop]. unfold bind. rewrite E1.
    split; [exact E'|]. split; [|split; congruence].
    intros _. cbn [map fold_right]. destruct cs as [|c' cs'].
    + cbn [sensor_loop] in E'. apply ret_inv in E'. destruct E' as [_ ->].
      rewrite Hc1. cbn [map fold_right]. f_equal. ring.
    + rewrite Hc' by discriminate. rewrite Hc1, Rmod_360_inner. f_equal. ring.
Qed.

End SensorCourse.

Lemma sensor_loop_course_witness :
  exists m',
    sensor_loop [(350, 1); (20, 1)]%R
      (RFState.Model 1 1 "random" 0 (Vec4 50 0 0 1)%R RFState.init_sensor_state)
    = Ok (tt, m')
    /\ course_deg (RFState.sensor_state m') = Np.Rmod (0 + (350 + (20 + 0))) 360.
Proof.
  destruct (sensor_loop_course [(350, 1); (20, 1)]%R
              (RFState.Model 1 1 "random" 0 (Vec4 50 0 0 1)%R
                 RFState.init_sensor_state))
    as [m' [E [Hc _]]].
  exists m'. split; [exact E|]. apply Hc. discriminate.
Defined.

(** ** The constructed target *)

(** [init_target_state] always returns, and the state it draws is inside the
    band of the best reward and inside the default sensor range: its reward
    without an action is 0.1, and region 0 of the quadrant bearing sensor does
    not take it for out of range. *)
Theorem init_target_state_in_band (g : rng) :
  exists s g',
    RFState.init_target_state g = Ok (s, g')
    /\ (25 <= range s <= 100)%Z /\ (0 <= bearing_deg s <= 359)%Z
    /\ (exists k, 0 <= k <= 11 /\ course_deg s = k * 30)%Z
    /\ speed s = 1%Z
    /\ RFState.reward_func (as_Q s) None RFState.default_action_penalty = 0.1%Q
    /\ Qgeb (range (as_Q s)) Bearing.default_sensor_range = false.
Proof.
  unfold RFState.init_target_state, bind, ret.
  destruct (randint_range g (a := 25) (b := 100) ltac:(lia)) as [r [Er Hr]].
  rewrite Er.
  destruct (randint_range (snd (next g)) (a := 0) (b := 359) ltac:(lia))
    as [b [Eb Hb]].
  rewrite Eb.
  destruct (randint_range (snd (next (snd (next g)))) (a := 0) (b := 11) ltac:(lia))
    as [c [Ec Hc]].
  rewrite Ec.
  eexists. eexists. split; [reflexivity|].
  cbn [range bearing_deg course_deg speed].
  split; [exact Hr|]. split; [exact Hb|]. split; [now exists c|].
  split; [reflexivity|].
  assert (H1 := const_le_inject_Z (a := 25) (b := r) ltac:(lia)).
  assert (H2 := inject_Z_le_const (a := r) (b := 100) ltac:(lia)).
  unfold RFState.reward_func, as_Q, vec4_map, Bearing.default_sensor_range.
  cbn [range].
  assert (G1 : Qgeb (inject_Z r) 150 = false).
  { destruct (Qgeb (inject_Z r) 150) eqn:E; [|reflexivity]. qbool. Lqa.lra. }
  assert (G2 : Qleb (inject_Z r) 10 = false).
  { destruct (Qleb (inject_Z r) 10) eqn:E; [|reflexivity]. qbool. Lqa.lra. }
  rewrite G1, G2. split; reflexivity.
Qed.
